(** * pst2t_summarize: merge-and-normalize engine of the PathSeq-T2T summarize step

    A shallow embedding of [scripts/pst2t_summarize.py] and the properties of
    its report merging, percentage recomputation and per-million normalization.

    Conventions of the embedding.
    - Text is a [string] of bytes; the Python string methods used by the script
      are written out in module [Py] for ASCII text (the upstream tools emit
      ASCII).
    - A pandas numeric cell is a canonical rational [Qc] with exact sums and
      products. pandas holds a count column as [int64] or as [float64]; both
      agree with the exact values on whole numbers whose absolute values add
      up to at most 2^53, and the properties that depend on the values of
      sums carry that range as a precondition ([exact_counts]). The
      percentage, which the script rounds to four decimals, is computed in
      binary floating point ([float64]).
    - The Series of the filtering summary have dtype [Int64]; the properties
      of their values carry the precondition that the counts fit 64 bits
      ([filter_counts_fit]).
    - A missing cell (pandas NaN) is [None].
    - [pd.read_table] and [pd.to_numeric] belong to pandas; the frame of cells
      that [read_table] builds is part of the modelled input and the numeric
      coercion of the finite literals is a parameter [to_numeric] of the
      development. The literals that pandas reads as an infinity are
      recognised by [infinite_literal].
    - Exceptions are values of [exn] carried by the [result] monad; messages on
      stderr are collected in a log. *)

From Stdlib Require Import String Ascii List ZArith QArith Qcanon Qround Lia Lqa Bool.
From Stdlib Require Import SpecFloat.
From Stdlib Require Import Permutation Sorted.
Import ListNotations.

Local Open Scope string_scope.
Local Open Scope Z_scope.

(** ** Python string methods *)

Module Py.

(** [str.isspace] on one ASCII character: TAB, LF, VT, FF, CR, the four
    separators 0x1c-0x1f and the space. *)
Definition is_space (c : ascii) : bool :=
  let n := nat_of_ascii c in
  ((9 <=? n)%nat && (n <=? 13)%nat) || ((28 <=? n)%nat && (n <=? 32)%nat).

Definition is_digit (c : ascii) : bool :=
  let n := nat_of_ascii c in (48 <=? n)%nat && (n <=? 57)%nat.

Fixpoint lstrip_by (p : ascii -> bool) (s : string) : string :=
  match s with
  | EmptyString => EmptyString
  | String c s' => if p c then lstrip_by p s' else s
  end.

Fixpoint rstrip_by (p : ascii -> bool) (s : string) : string :=
  match s with
  | EmptyString => EmptyString
  | String c s' =>
      match rstrip_by p s' with
      | EmptyString => if p c then EmptyString else String c EmptyString
      | r => String c r
      end
  end.

(** [s.strip()] *)
Definition strip (s : string) : string := rstrip_by is_space (lstrip_by is_space s).

Fixpoint mem_char (c : ascii) (chars : string) : bool :=
  match chars with
  | EmptyString => false
  | String d chars' => Ascii.eqb c d || mem_char c chars'
  end.

(** [s.strip(chars)] *)
Definition strip_chars (chars s : string) : string :=
  rstrip_by (fun c => mem_char c chars) (lstrip_by (fun c => mem_char c chars) s).

(** [s.rstrip(chars)] *)
Definition rstrip_chars (chars s : string) : string :=
  rstrip_by (fun c => mem_char c chars) s.

(** [s.split(sep)] for a one-character separator: never an empty list. *)
Fixpoint split (sep : ascii) (s : string) : list string :=
  match s with
  | EmptyString => [EmptyString]
  | String c s' =>
      if Ascii.eqb c sep then EmptyString :: split sep s'
      else match split sep s' with
           | [] => [String c EmptyString]
           | w :: ws => String c w :: ws
           end
  end.

(** [s.split()]: maximal runs of non-whitespace characters. *)
Fixpoint split_ws_aux (cur : option string) (s : string) : list string :=
  match s with
  | EmptyString =>
      match cur with Some w => [w] | None => [] end
  | String c s' =>
      if is_space c then
        match cur with
        | Some w => w :: split_ws_aux None s'
        | None => split_ws_aux None s'
        end
      else
        match cur with
        | Some w => split_ws_aux (Some (w ++ String c EmptyString)) s'
        | None => split_ws_aux (Some (String c EmptyString)) s'
        end
  end.

Definition split_ws (s : string) : list string := split_ws_aux None s.

Fixpoint all_chars (p : ascii -> bool) (s : string) : bool :=
  match s with
  | EmptyString => true
  | String c s' => p c && all_chars p s'
  end.

(** [s.isdigit()]: non-empty and made of decimal digits. *)
Definition isdigit (s : string) : bool :=
  match s with
  | EmptyString => false
  | _ => all_chars is_digit s
  end.

Fixpoint digits_value (acc : Z) (s : string) : Z :=
  match s with
  | EmptyString => acc
  | String c s' => digits_value (10 * acc + (Z.of_nat (nat_of_ascii c) - 48)) s'
  end.

(** [int(s)] on a string for which [isdigit] holds. *)
Definition int_digits (s : string) : Z := digits_value 0 s.

(** The digit groups of an integer literal: digits, with single underscores
    allowed between digits. [prev] tells whether the previous character was
    a digit. *)
Fixpoint literal_body (prev : bool) (acc : Z) (s : string) : option Z :=
  match s with
  | EmptyString => if prev then Some acc else None
  | String c s' =>
      if is_digit c then
        literal_body true (10 * acc + (Z.of_nat (nat_of_ascii c) - 48)) s'
      else if Ascii.eqb c "_"%char then
        if prev then literal_body false acc s' else None
      else None
  end.

(** [int(s)] on an arbitrary string: surrounding whitespace is ignored, one
    sign is allowed; [None] stands for [ValueError]. *)
Definition int (s : string) : option Z :=
  match strip s with
  | String "-"%char body => option_map Z.opp (literal_body false 0 body)
  | String "+"%char body => literal_body false 0 body
  | body => literal_body false 0 body
  end.

(** [s.startswith(p)] *)
Definition startswith (s p : string) : bool := String.prefix p s.

(** [p in s] *)
Fixpoint contains (s p : string) : bool :=
  String.prefix p s
  || match s with
     | EmptyString => false
     | String _ s' => contains s' p
     end.

(** Universal-newline translation of text mode: CR LF and a lone CR both
    read as LF. *)
Fixpoint universal_newlines (s : string) : string :=
  match s with
  | EmptyString => EmptyString
  | String c s' =>
      if Ascii.eqb c "013"%char then
        match s' with
        | String d s'' =>
            if Ascii.eqb d "010"%char then String "010"%char (universal_newlines s'')
            else String "010"%char (universal_newlines s')
        | EmptyString => String "010"%char EmptyString
        end
      else String c (universal_newlines s')
  end.

(** The lines a text file yields when iterated: each keeps its LF, the last
    one may lack it. *)
Fixpoint lines_of (s : string) : list string :=
  match s with
  | EmptyString => []
  | String c s' =>
      if Ascii.eqb c "010"%char then String c EmptyString :: lines_of s'
      else match lines_of s' with
           | [] => [String c EmptyString]
           | l :: ls => String c l :: ls
           end
  end.

Definition readlines (content : string) : list string :=
  lines_of (universal_newlines content).

End Py.

(** The TAB and LF characters as one-character strings. *)
Definition tab : string := String "009"%char EmptyString.
Definition nl : string := String "010"%char EmptyString.

(** ** Numbers *)

Definition Z2Qc (z : Z) : Qc := Q2Qc (inject_Z z).

Definition Qc_eqb (x y : Qc) : bool := Qeq_bool x y.
Definition Qc_ltb (x y : Qc) : bool := negb (Qle_bool y x).

(** [int(x)] on a number: truncation towards zero. *)
Definition trunc (x : Qc) : Z := Z.quot (Qnum x) (Zpos (Qden x)).

(** ** Binary floating point

    [pct_reads] is computed on a [float64] column; the IEEE 754 binary64
    operations are the ones of the standard library's [SpecFloat], with 53
    bits of precision and rounding to the nearest, ties to even. *)
Definition float64 : Type := spec_float.

Definition f64_of_Z (z : Z) : float64 := binary_normalize 53 1024 z 0 false.
Definition f64_mul : float64 -> float64 -> float64 := SFmul 53 1024.
Definition f64_div : float64 -> float64 -> float64 := SFdiv 53 1024.
Definition f64_add : float64 -> float64 -> float64 := SFadd 53 1024.
Definition f64_sub : float64 -> float64 -> float64 := SFsub 53 1024.

(** The [float64] nearest to a number of the column. *)
Definition f64_of_Qc (q : Qc) : float64 :=
  f64_div (f64_of_Z (Qnum q)) (f64_of_Z (Zpos (Qden q))).

(** The number a finite [float64] stands for. *)
Definition f64_value (x : float64) : Qc :=
  match x with
  | S754_finite s m e =>
      let v := inject_Z (if s then Zneg m else Zpos m) in
      Q2Qc (if 0 <=? e then v * inject_Z (2 ^ e) else v / inject_Z (2 ^ (- e)))
  | _ => Q2Qc 0
  end.

Definition two52 : float64 := f64_of_Z (2 ^ 52).

(** Rounding to the nearest integer, ties to the even one ([numpy.rint]):
    below 2^52 adding and subtracting 2^52 rounds at the unit; from 2^52 on
    every [float64] is an integer. *)
Definition rint (x : float64) : float64 :=
  if SFleb two52 (SFabs x) then x
  else if SFltb x (S754_zero false)
       then SFopp (f64_sub (f64_add (SFopp x) two52) two52)
       else f64_sub (f64_add x two52) two52.

(** [Series.round(4)]: scale by 10^4, round to the nearest integer, scale
    back. *)
Definition round4 (x : float64) : float64 :=
  f64_div (rint (f64_mul x (f64_of_Z 10000))) (f64_of_Z 10000).

Definition sumQc (l : list Qc) : Qc := fold_right Qcplus 0%Qc l.
Arguments sumQc : simpl never.

(** The spellings of an infinity that [pd.to_numeric] accepts: an optional
    sign before "inf" or "infinity", in any letter case, white space around
    it aside. *)
Definition lower (c : ascii) : ascii :=
  let n := nat_of_ascii c in
  if (65 <=? n)%nat && (n <=? 90)%nat then ascii_of_nat (n + 32) else c.

Fixpoint lowercase (s : string) : string :=
  match s with
  | EmptyString => EmptyString
  | String c s' => String (lower c) (lowercase s')
  end.

Definition unsigned (s : string) : string :=
  match s with
  | String c s' =>
      if Ascii.eqb c "+"%char || Ascii.eqb c "-"%char then s' else s
  | EmptyString => s
  end.

Definition infinite_literal (s : string) : bool :=
  let body := lowercase (unsigned (Py.strip s)) in
  String.eqb body "inf" || String.eqb body "infinity".

(** ** Exceptions and logging *)

Inductive exn : Type :=
| FileNotFoundError
| ValueError
| RuntimeError
| IndexError
| ParserError
| OSError.

Inductive result (A : Type) : Type :=
| Ok (a : A)
| Raise (e : exn).
Arguments Ok {A} a.
Arguments Raise {A} e.

Definition bind {A B : Type} (m : result A) (k : A -> result B) : result B :=
  match m with
  | Ok a => k a
  | Raise e => Raise e
  end.

Notation "x <- m ;; k" := (bind m (fun x => k))
  (at level 61, m at next level, right associativity).
Notation "' p <- m ;; k" := (bind m (fun x => match x with p => k end))
  (at level 61, p pattern, m at next level, right associativity).

(** Messages written to stderr. *)
Inductive message : Type :=
| WarnFlagstatUnreadable
| WarnNoClassifierOutputs
| WarnPrimaryReadsNotPositive
| WarnKrakenNormalizationFailed (e : exn)
| WarnMetaphlanNormalizationFailed (e : exn)
| Fatal (e : exn).

(** ** Frames of cells *)

(** A cell as [read_table] leaves it: text, or [None] for a missing value. *)
Definition cell : Type := option string.

(** What [pd.read_table(path, header=None)] returns: [shape1] is
    [df.shape[1]]; every row holds [shape1] cells. *)
Record raw_frame : Type := {
  shape1 : nat;
  raw_rows : list (list cell)
}.

Definition col (i : nat) (row : list cell) : cell := nth i row None.

(** A Kraken2 report file that exists: of size zero, or handed to
    [pd.read_table(path, header=None, dtype=str)], which returns a frame or
    raises a parser error. *)
Inductive report_file : Type :=
| EmptyFile
| Table (t : raw_frame)
| Unparsable.

(** A text file that exists: [open] and decoding fail, or give the content. *)
Inductive text_file : Type :=
| Unreadable
| Text (content : string).

(** [Series.str.strip()] keeps missing values missing. *)
Definition str_strip (c : cell) : cell := option_map Py.strip c.

Definition fillna (d : Qc) (v : option Qc) : Qc :=
  match v with
  | Some q => q
  | None => d
  end.

(** ** Ordered dictionaries and Series *)

(** A [dict] with string keys, and the integer [pd.Series] built from one: an
    association list in insertion order. *)
Definition series : Type := list (string * Z).

Fixpoint lookup (k : string) (s : series) : option Z :=
  match s with
  | [] => None
  | (k', v) :: s' => if String.eqb k k' then Some v else lookup k s'
  end.

(** [d.get(k, default)] *)
Definition get (s : series) (k : string) (default : Z) : Z :=
  match lookup k s with
  | Some v => v
  | None => default
  end.

(** [d[k] = v]: an existing key keeps its place, a new one goes last. *)
Fixpoint set (s : series) (k : string) (v : Z) : series :=
  match s with
  | [] => [(k, v)]
  | (k', v') :: s' =>
      if String.eqb k k' then (k, v) :: s' else (k', v') :: set s' k v
  end.

(** [s.reindex(order).fillna(0).astype(int)] *)
Definition reindex_fill0 (order : list string) (s : series) : series :=
  map (fun k => (k, get s k 0)) order.

Definition keys (s : series) : list string := map fst s.

(** ** Filtering summary *)

(** The loop body of [parse_flagstat_primary] over the remaining lines. *)
Fixpoint flagstat_scan (lines : list string) : option Z :=
  match lines with
  | [] => None
  | line :: rest =>
      let parts := Py.split "009"%char (Py.rstrip_chars nl line) in
      if (3 <=? length parts)%nat && String.eqb (Py.strip (nth 2 parts "")) "primary" then
        let val := Py.strip (nth 0 parts "") in
        if Py.isdigit val then Some (Py.int_digits val) else flagstat_scan rest
      else flagstat_scan rest
  end.

Definition parse_flagstat_primary (f : text_file) : option Z * list message :=
  match f with
  | Text content => (flagstat_scan (Py.readlines content), [])
  | Unreadable => (None, [WarnFlagstatUnreadable])
  end.

(** The filter-stats directory of one sample. [flagstat_file name] is the
    file of that name ([None] when [os.path.isfile] is false);
    [metrics_table name] is the Series that [read_pathseq_metrics_table]
    returns for the file of that name ([None] for its [None]). *)
Record filter_stats_dir : Type := {
  flagstat_file : string -> option text_file;
  metrics_table : string -> option series
}.

Definition flagstat_mapping (sample : string) : list (string * string) :=
  [ ("PRIMARY_READS",                  sample ++ ".flagstat.tsv");
    ("T2T_ALIGNED_PAIRED_PRIMARY",     sample ++ ".qcfilt_paired.t2t_aln.flagstat.tsv");
    ("T2T_UNALIGNED_PAIRED_PRIMARY",   sample ++ ".qcfilt_paired.t2t_unaln.flagstat.tsv");
    ("T2T_ALIGNED_UNPAIRED_PRIMARY",   sample ++ ".qcfilt_unpaired.t2t_aln.flagstat.tsv");
    ("T2T_UNALIGNED_UNPAIRED_PRIMARY", sample ++ ".qcfilt_unpaired.t2t_unaln.flagstat.tsv") ].

(** The [for key, fname in mapping.items()] loop, threading the dictionary
    and the log. *)
Fixpoint collect_flagstats (dir : filter_stats_dir) (mapping : list (string * string))
    (rs : series) (log : list message) : series * list message :=
  match mapping with
  | [] => (rs, log)
  | (key, fname) :: mapping' =>
      match flagstat_file dir fname with
      | Some f =>
          let '(v, msgs) := parse_flagstat_primary f in
          match v with
          | Some n => collect_flagstats dir mapping' (set rs key n) (log ++ msgs)%list
          | None => collect_flagstats dir mapping' rs (log ++ msgs)%list
          end
      | None => collect_flagstats dir mapping' rs log
      end
  end.

(** The dictionary [rs] as the Series [pd.Series(rs, dtype='Int64')], which
    pandas builds when every value fits 64 bits ([filter_counts_fit]) and
    refuses with [OverflowError] otherwise. *)
Definition collect_primary_reads (dir : filter_stats_dir) (sample : string)
  : series * list message :=
  let '(rs, log) := collect_flagstats dir (flagstat_mapping sample) [] [] in
  (set rs "T2T_UNALIGNED_TOTAL_READS"
       (get rs "T2T_UNALIGNED_PAIRED_PRIMARY" 0 + get rs "T2T_UNALIGNED_UNPAIRED_PRIMARY" 0),
   log).

Definition PATHSEQ_COLS : list string :=
  [ "PRIMARY_READS";
    "READS_AFTER_PREALIGNED_HOST_FILTER";
    "READS_AFTER_QUALITY_AND_COMPLEXITY_FILTER";
    "READS_AFTER_HOST_FILTER";
    "READS_AFTER_DEDUPLICATION";
    "FINAL_PAIRED_READS";
    "FINAL_UNPAIRED_READS";
    "FINAL_TOTAL_READS" ].

(** [s = read_pathseq_metrics_table(fpath)], an empty Series for [None]. *)
Definition metrics_or_empty (dir : filter_stats_dir) (fname : string) : series :=
  match metrics_table dir fname with
  | Some s => s
  | None => []
  end.

(** [for col in PATHSEQ_COLS: rs[f'{kind}_{col}'] = int(s.get(col, 0))] *)
Definition set_kind (kind : string) (s : series) (rs : series) : series :=
  fold_left (fun rs col => set rs (kind ++ "_" ++ col) (get s col 0)) PATHSEQ_COLS rs.

Definition collect_pathseq_metrics (dir : filter_stats_dir) (sample : string) : series :=
  let unaligned := metrics_or_empty dir (sample ++ ".unaligned.filter_metrics.txt") in
  let excluded := metrics_or_empty dir (sample ++ ".excluded.filter_metrics.txt") in
  let rs := set_kind "UNALIGNED" unaligned [] in
  let rs := set_kind "EXCLUDED" excluded rs in
  fold_left (fun rs col =>
               set rs ("QCFILTER_" ++ col) (get unaligned col 0 + get excluded col 0))
            PATHSEQ_COLS rs.

Definition FILTER_SUMMARY_ORDER : list string :=
  (["PRIMARY_READS"]
   ++ flat_map (fun kind => map (fun col => (kind ++ "_" ++ col)%string) PATHSEQ_COLS)
               ["QCFILTER"; "UNALIGNED"; "EXCLUDED"]
   ++ ["T2T_UNALIGNED_TOTAL_READS"; "T2T_UNALIGNED_PAIRED_PRIMARY";
       "T2T_UNALIGNED_UNPAIRED_PRIMARY"])%list.

Definition filtering_summary (dir : filter_stats_dir) (sample : string)
  : series * list message :=
  let '(rs_flagstat, log) := collect_primary_reads dir sample in
  let rs_pathseq := collect_pathseq_metrics dir sample in
  let merged := (rs_flagstat ++ rs_pathseq)%list in
  (reindex_fill0 FILTER_SUMMARY_ORDER merged, log).

(** ** First classifier: Kraken2 reports *)

Module Report.
(** One row of the frame [load_kraken_report] returns (KRAKEN2_COLS). *)
Record row : Type := {
  pct_reads : Qc;
  reads_clade : Qc;
  reads_taxon : Qc;
  minimizers_count : Qc;
  minimizers_distinct : Qc;
  rank : cell;
  tax_id : Qc;
  name : cell
}.
End Report.

Module Grouped.
(** One row of the grouped sums: the three keys and the four summed
    columns. *)
Record row : Type := {
  name : string;
  tax_id : Qc;
  rank : string;
  reads_clade : Qc;
  reads_taxon : Qc;
  minimizers_count : Qc;
  minimizers_distinct : Qc
}.
End Grouped.

Module Merged.
(** One row of the frame [merge_kraken_reports] returns. *)
Record row : Type := {
  pct_reads : float64;
  reads_clade : Qc;
  reads_taxon : Qc;
  rank : string;
  tax_id : Qc;
  name : string
}.
End Merged.

Module Clade.
(** One row of the frame [load_metaphlan_table] returns (MPA_COLUMNS). *)
Record row : Type := {
  clade_name : string;
  clade_taxid : Z;
  relative_abundance : Qc;
  coverage : Qc;
  estimated_number_of_reads_from_the_clade : Qc
}.
End Clade.

Module KrakenOut.
(** One row of <sample>.kraken.txt. *)
Record row : Type := {
  name : string;
  tax_id : Qc;
  rank : string;
  reads_clade : Qc;
  reads_taxon : Qc;
  reads_clade_per_million : Qc;
  reads_taxon_per_million : Qc;
  pct_reads : float64
}.
End KrakenOut.

Module MetaphlanOut.
(** One row of <sample>.metaphlan.txt. *)
Record row : Type := {
  clade_name : string;
  clade_taxid : Z;
  estimated_number_of_reads_from_the_clade : Qc;
  estimated_number_of_reads_from_the_clade_per_million : Qc;
  relative_abundance : Qc;
  coverage : Qc
}.
End MetaphlanOut.

(** The MetaPhlAn report: its text, read line by line for the header block,
    and the outcome of [pd.read_table(path, comment='#', header=None)] on
    it. *)
Record metaphlan_file : Type := {
  mpa_text : text_file;
  mpa_table : result raw_frame
}.

(** The classification-stats directory of one sample: the files
    <sample>.paired.kraken.report.txt, <sample>.unpaired.kraken.report.txt and
    <sample>.metaphlan.report.txt, [None] when [os.path.isfile] is false. *)
Record classification_stats_dir : Type := {
  paired_report : option report_file;
  unpaired_report : option report_file;
  metaphlan_report : option metaphlan_file
}.

(** The normalized tables written to the results directory. *)
Record normalized_tables : Type := {
  kraken_txt : option (list KrakenOut.row);
  metaphlan_txt : option (list MetaphlanOut.row)
}.

(** What one invocation leaves behind: exit status, <sample>.summary.tsv
    when written, the normalized tables, and stderr. *)
Record outcome : Type := {
  exit_status : Z;
  summary_tsv : option series;
  tables : normalized_tables;
  stderr : list message
}.

(** A group key: (name, tax_id, rank). *)
Definition key : Type := (string * Qc * string)%type.

Definition key_eqb (a b : key) : bool :=
  let '(n1, t1, r1) := a in
  let '(n2, t2, r2) := b in
  String.eqb n1 n2 && Qc_eqb t1 t2 && String.eqb r1 r2.

(** Lexicographic order on keys, the order in which [groupby] emits groups. *)
Definition key_leb (a b : key) : bool :=
  let '(n1, t1, r1) := a in
  let '(n2, t2, r2) := b in
  match String.compare n1 n2 with
  | Lt => true
  | Gt => false
  | Eq =>
      match Qccompare t1 t2 with
      | Lt => true
      | Gt => false
      | Eq => String.leb r1 r2
      end
  end.

Fixpoint insert_key (k : key) (l : list key) : list key :=
  match l with
  | [] => [k]
  | k' :: l' => if key_leb k k' then k :: l else k' :: insert_key k l'
  end.

Definition sort_keys (l : list key) : list key := fold_right insert_key [] l.

Fixpoint mem_key (k : key) (l : list key) : bool :=
  match l with
  | [] => false
  | k' :: l' => key_eqb k k' || mem_key k l'
  end.

Fixpoint unique_keys (l : list key) : list key :=
  match l with
  | [] => []
  | k :: l' => if mem_key k l' then unique_keys l' else k :: unique_keys l'
  end.

(** The group a row falls in; a row with a missing name or rank has none
    ([groupby] leaves such rows out). *)
Definition key_of (r : Report.row) : option key :=
  match Report.name r, Report.rank r with
  | Some n, Some k => Some (n, Report.tax_id r, k)
  | _, _ => None
  end.

Definition in_group (k : key) (r : Report.row) : bool :=
  match key_of r with
  | Some k' => key_eqb k' k
  | None => false
  end.

Fixpoint present_keys (rows : list Report.row) : list key :=
  match rows with
  | [] => []
  | r :: rows' =>
      match key_of r with
      | Some k => k :: present_keys rows'
      | None => present_keys rows'
      end
  end.

Definition group_keys (rows : list Report.row) : list key :=
  sort_keys (unique_keys (present_keys rows)).

(** [df.groupby(['name','tax_id','rank'], as_index=False)[[...]].sum()] *)
Definition groupby_sum (rows : list Report.row) : list Grouped.row :=
  map (fun k : key =>
         let g := filter (in_group k) rows in
         let '(n, t, r) := k in
         {| Grouped.name := n;
            Grouped.tax_id := t;
            Grouped.rank := r;
            Grouped.reads_clade := sumQc (map Report.reads_clade g);
            Grouped.reads_taxon := sumQc (map Report.reads_taxon g);
            Grouped.minimizers_count := sumQc (map Report.minimizers_count g);
            Grouped.minimizers_distinct := sumQc (map Report.minimizers_distinct g) |})
      (group_keys rows).

(** The key columns of a grouped and of a merged row. *)
Definition grouped_key (g : Grouped.row) : key :=
  (Grouped.name g, Grouped.tax_id g, Grouped.rank g).

Definition merged_key (r : Merged.row) : key :=
  (Merged.name r, Merged.tax_id r, Merged.rank r).

(** [tax_id.isin([0, 1])] *)
Definition is_root (t : Qc) : bool := Qc_eqb t (Z2Qc 0) || Qc_eqb t (Z2Qc 1).

(** Row [h] is row [x] with its clade count halved: same name, tax_id and
    rank, and twice the reads_clade of [h] is the reads_clade of [x]. *)
Definition halved (x h : Report.row) : Prop :=
  Report.name h = Report.name x
  /\ Report.tax_id h = Report.tax_id x
  /\ Report.rank h = Report.rank x
  /\ (Z2Qc 2 * Report.reads_clade h)%Qc = Report.reads_clade x.

(** The per-taxon clade totals of a merged frame: each key with its
    reads_clade. *)
Definition clade_totals (df : list Merged.row) : list (key * Qc) :=
  map (fun r => (merged_key r, Merged.reads_clade r)) df.

(** The leading comment block of a file: its lines up to the first one that
    does not start with '#'. *)
Fixpoint comment_block (lines : list string) : list string :=
  match lines with
  | [] => []
  | line :: rest =>
      if Py.startswith line "#" then line :: comment_block rest else []
  end.

(** No tables written. *)
Definition no_tables : normalized_tables :=
  {| kraken_txt := None; metaphlan_txt := None |}.

(** The denominator of a merged frame: reads_clade summed over the rows with
    tax_id 0 or 1. *)
Definition denominator (df : list Merged.row) : Qc :=
  sumQc (map Merged.reads_clade (filter (fun r => is_root (Merged.tax_id r)) df)).

Section Coercion.

(** [pd.to_numeric(cell, errors='coerce')] on a text cell: [None] when the
    text is not a number. *)
Variable to_numeric : string -> option Qc.

Definition numeric (c : cell) : option Qc :=
  match c with
  | Some s => to_numeric s
  | None => None
  end.

Definition kraken_row_of (cs : list cell) : Report.row :=
  {| Report.pct_reads := fillna (Z2Qc 0) (numeric (col 0 cs));
     Report.reads_clade := fillna (Z2Qc 0) (numeric (col 1 cs));
     Report.reads_taxon := fillna (Z2Qc 0) (numeric (col 2 cs));
     Report.minimizers_count := fillna (Z2Qc 0) (numeric (col 3 cs));
     Report.minimizers_distinct := fillna (Z2Qc 0) (numeric (col 4 cs));
     Report.rank := col 5 cs;
     Report.tax_id := fillna (Z2Qc 0) (numeric (col 6 cs));
     Report.name := str_strip (col 7 cs) |}.

Definition load_kraken_report (f : report_file) : result (list Report.row) :=
  match f with
  | EmptyFile => Ok []
  | Unparsable => Raise ParserError
  | Table t =>
      if (shape1 t <? 8)%nat then Raise ValueError
      else Ok (map kraken_row_of (raw_rows t))
  end.

(** The two assignments [df['reads_clade'] = 2 * df['reads_clade']] and
    [df['reads_taxon'] = 2 * df['reads_taxon']], on the exact values: the
    columns of pandas agree with them in the range of [exact_counts]. *)
Definition double_reads (r : Report.row) : Report.row :=
  {| Report.pct_reads := Report.pct_reads r;
     Report.reads_clade := (Z2Qc 2 * Report.reads_clade r)%Qc;
     Report.reads_taxon := (Z2Qc 2 * Report.reads_taxon r)%Qc;
     Report.minimizers_count := Report.minimizers_count r;
     Report.minimizers_distinct := Report.minimizers_distinct r;
     Report.rank := Report.rank r;
     Report.tax_id := Report.tax_id r;
     Report.name := Report.name r |}.

(** One [if present[i]: ... dfs.append(...)] step. *)
Definition append_doubled (dfs : list (list Report.row)) (f : option report_file)
  : result (list (list Report.row)) :=
  match f with
  | Some file =>
      df <- load_kraken_report file ;;
      Ok (dfs ++ [map double_reads df])%list
  | None => Ok dfs
  end.

Definition total_reads_of (df : list Grouped.row) : Qc :=
  sumQc (map Grouped.reads_clade (filter (fun g => is_root (Grouped.tax_id g)) df)).

(** [(100.0 * df['reads_clade'] / total_reads).round(4) if total_reads > 0
    else 0.0] for one row. *)
Definition pct_of (total_reads reads : Qc) : float64 :=
  if Qc_ltb (Z2Qc 0) total_reads
  then round4 (f64_div (f64_mul (f64_of_Z 100) (f64_of_Qc reads))
                       (f64_of_Qc total_reads))
  else S754_zero false.

Definition merged_row_of (total_reads : Qc) (g : Grouped.row) : Merged.row :=
  {| Merged.pct_reads := pct_of total_reads (Grouped.reads_clade g);
     Merged.reads_clade := Grouped.reads_clade g;
     Merged.reads_taxon := Grouped.reads_taxon g;
     Merged.rank := Grouped.rank g;
     Merged.tax_id := Grouped.tax_id g;
     Merged.name := Grouped.name g |}.

Definition merge_kraken_reports (paired unpaired : option report_file)
  : result (list Merged.row) :=
  match paired, unpaired with
  | None, None => Raise FileNotFoundError
  | _, _ =>
      dfs <- append_doubled [] paired ;;
      dfs <- append_doubled dfs unpaired ;;
      let df := groupby_sum (concat dfs) in
      let total_reads := total_reads_of df in
      Ok (map (merged_row_of total_reads) df)
  end.

(** The rows read from the reports that are present, before doubling, in
    the order in which they are concatenated. Used to state what the merge
    computes. *)
Definition load_present (f : option report_file) : result (list Report.row) :=
  match f with
  | Some file => load_kraken_report file
  | None => Ok []
  end.

Definition input_rows (paired unpaired : option report_file)
  : result (list Report.row) :=
  p <- load_present paired ;;
  u <- load_present unpaired ;;
  Ok (p ++ u)%list.

(** ** Second classifier: MetaPhlAn table *)

(** [df['clade_name'].astype(str)]: a missing value prints as "nan". *)
Definition astype_str (c : cell) : string :=
  match c with
  | Some s => s
  | None => "nan"
  end.

Definition clade_row_of (cs : list cell) : Clade.row :=
  {| Clade.clade_name := astype_str (col 0 cs);
     Clade.clade_taxid := trunc (fillna (Z2Qc (-1)) (numeric (col 1 cs)));
     Clade.relative_abundance := fillna (Z2Qc 0) (numeric (col 2 cs));
     Clade.coverage := fillna (Z2Qc 0) (numeric (col 3 cs));
     Clade.estimated_number_of_reads_from_the_clade :=
       fillna (Z2Qc 0) (numeric (col 4 cs)) |}.

(** A cell that [pd.to_numeric] reads as an infinity: a spelling of one, or
    a literal whose value is beyond the largest [float64]. *)
Definition infinite_cell (c : cell) : bool :=
  match c with
  | Some s =>
      infinite_literal s
      || match to_numeric s with
         | Some q => match f64_of_Qc q with
                     | S754_infinity _ => true
                     | _ => false
                     end
         | None => false
         end
  | None => false
  end.

(** [read_table] is the outcome of [pd.read_table(path, comment='#',
    header=None)]. Fewer than five columns raise [RuntimeError]; naming the
    columns with the five MPA_COLUMNS raises [ValueError] when the frame has
    more. [fillna(-1).astype(int)] on the clade_taxid column raises
    [IntCastingNaNError], a [ValueError], when a cell of it is infinite. *)
Definition load_metaphlan_table (read_table : result raw_frame)
  : result (list Clade.row) :=
  df <- read_table ;;
  if (shape1 df <? 5)%nat then Raise RuntimeError
  else if negb (shape1 df =? 5)%nat then Raise ValueError
  else if existsb (fun cs => infinite_cell (col 1 cs)) (raw_rows df)
       then Raise ValueError
  else Ok (map clade_row_of (raw_rows df)).

(** The [for i, p in enumerate(parts)] loop: the first digit token followed
    by "reads" and a token starting with "processed"; [parts[i+1]] and
    [parts[i+2]] raise [IndexError] past the end. *)
Fixpoint find_reads_processed (parts : list string) : result (option Z) :=
  match parts with
  | [] => Ok None
  | p :: rest =>
      if Py.isdigit p then
        match rest with
        | [] => Raise IndexError
        | p1 :: rest1 =>
            if String.eqb p1 "reads" then
              match rest1 with
              | [] => Raise IndexError
              | p2 :: _ =>
                  if Py.startswith p2 "processed" then Ok (Some (Py.int_digits p))
                  else find_reads_processed rest
              end
            else find_reads_processed rest
        end
      else find_reads_processed rest
  end.

(** The header loop of [summarize_classification] over the remaining
    lines, from the current [total_reads] and [classified_reads]. *)
Fixpoint scan_header (lines : list string) (total_reads classified_reads : Z)
  : result (Z * Z) :=
  match lines with
  | [] => Ok (total_reads, classified_reads)
  | line :: rest =>
      if negb (Py.startswith line "#") then Ok (total_reads, classified_reads)
      else
        total_reads' <-
          (if Py.contains line "reads processed" then
             found <- find_reads_processed
                        (Py.split_ws (Py.strip_chars ("# " ++ nl) line)) ;;
             Ok (match found with Some n => n | None => total_reads end)
           else Ok total_reads) ;;
        let classified_reads' :=
          if Py.startswith line "#estimated_reads_mapped_to_known_clades:" then
            match Py.int (nth 1 (Py.split ":"%char line) "") with
            | Some n => n
            | None => classified_reads
            end
          else classified_reads in
        scan_header rest total_reads' classified_reads'
  end.

Definition clade_reads_with_prefix (prefix : string) (df : list Clade.row) : Z :=
  trunc (sumQc (map Clade.estimated_number_of_reads_from_the_clade
                    (filter (fun r => Py.startswith (Clade.clade_name r) prefix) df))).

(** [summary.update(d)] *)
Definition update (summary d : series) : series :=
  fold_left (fun acc kv => set acc (fst kv) (snd kv)) d summary.

(** ** Classification summary *)

Definition reads_clade_where (p : Qc -> bool) (df : list Merged.row) : Z :=
  trunc (sumQc (map Merged.reads_clade (filter (fun r => p (Merged.tax_id r)) df))).

Definition is_microbial (t : Qc) : bool :=
  Qc_eqb t (Z2Qc 2) || Qc_eqb t (Z2Qc 4751) || Qc_eqb t (Z2Qc 2157)
  || Qc_eqb t (Z2Qc 10239).

Definition kraken_totals (dir : classification_stats_dir) : result series :=
  match merge_kraken_reports (paired_report dir) (unpaired_report dir) with
  | Ok df_k =>
      Ok [ ("TOTAL_READS_TESTED", reads_clade_where is_root df_k);
           ("UNCLASSIFIED_TOTAL_K2", reads_clade_where (fun t => Qc_eqb t (Z2Qc 0)) df_k);
           ("CLASSIFIED_TOTAL_K2", reads_clade_where (fun t => Qc_eqb t (Z2Qc 1)) df_k);
           ("MICROBIAL_TOTAL_K2", reads_clade_where is_microbial df_k);
           ("HUMAN_TOTAL_K2", reads_clade_where (fun t => Qc_eqb t (Z2Qc 9606)) df_k) ]
  | Raise FileNotFoundError => Ok []
  | Raise e => Raise e
  end.

Definition metaphlan_totals (f : metaphlan_file) : result series :=
  content <- match mpa_text f with
             | Text content => Ok content
             | Unreadable => Raise OSError
             end ;;
  '(total_reads, classified_reads) <- scan_header (Py.readlines content) 0 0 ;;
  let unclassified_reads := Z.max 0 (total_reads - classified_reads) in
  df_m <- load_metaphlan_table (mpa_table f) ;;
  let bacteria_reads := clade_reads_with_prefix "k__Bacteria" df_m in
  let archaea_reads := clade_reads_with_prefix "k__Archaea" df_m in
  Ok [ ("TOTAL_READS_MPA", total_reads);
       ("CLASSIFIED_READS_MPA", classified_reads);
       ("UNCLASSIFIED_READS_MPA", unclassified_reads);
       ("BACTERIAL_READS_MPA", bacteria_reads);
       ("ARCHAEAL_READS_MPA", archaea_reads) ].

Definition summarize_classification (dir : classification_stats_dir)
  : result (series * list message) :=
  summary <- kraken_totals dir ;;
  summary <- match metaphlan_report dir with
             | Some f =>
                 d <- metaphlan_totals f ;;
                 Ok (update summary d)
             | None => Ok summary
             end ;;
  Ok (summary, match summary with
               | [] => [WarnNoClassifierOutputs]
               | _ => []
               end).

(** ** Normalized tables *)

Definition per_million (primary_reads : Z) (x : Qc) : Qc :=
  (Z2Qc 1000000 * x / Z2Qc primary_reads)%Qc.

Definition kraken_rpm_row (primary_reads : Z) (r : Merged.row) : KrakenOut.row :=
  {| KrakenOut.name := Merged.name r;
     KrakenOut.tax_id := Merged.tax_id r;
     KrakenOut.rank := Merged.rank r;
     KrakenOut.reads_clade := Merged.reads_clade r;
     KrakenOut.reads_taxon := Merged.reads_taxon r;
     KrakenOut.reads_clade_per_million := per_million primary_reads (Merged.reads_clade r);
     KrakenOut.reads_taxon_per_million := per_million primary_reads (Merged.reads_taxon r);
     KrakenOut.pct_reads := Merged.pct_reads r |}.

Definition metaphlan_rpm_row (primary_reads : Z) (r : Clade.row) : MetaphlanOut.row :=
  {| MetaphlanOut.clade_name := Clade.clade_name r;
     MetaphlanOut.clade_taxid := Clade.clade_taxid r;
     MetaphlanOut.estimated_number_of_reads_from_the_clade :=
       Clade.estimated_number_of_reads_from_the_clade r;
     MetaphlanOut.estimated_number_of_reads_from_the_clade_per_million :=
       per_million primary_reads (Clade.estimated_number_of_reads_from_the_clade r);
     MetaphlanOut.relative_abundance := Clade.relative_abundance r;
     MetaphlanOut.coverage := Clade.coverage r |}.

(** The Kraken block: the table written to <sample>.kraken.txt, if any,
    and the messages. *)
Definition write_kraken_table (dir : classification_stats_dir) (primary_reads : Z)
  : option (list KrakenOut.row) * list message :=
  match paired_report dir, unpaired_report dir with
  | None, None => (None, [])
  | _, _ =>
      match merge_kraken_reports (paired_report dir) (unpaired_report dir) with
      | Ok dfk => (Some (map (kraken_rpm_row primary_reads) dfk), [])
      | Raise ex => (None, [WarnKrakenNormalizationFailed ex])
      end
  end.

(** The MetaPhlAn block: the table written to <sample>.metaphlan.txt, if
    any, and the messages. *)
Definition write_metaphlan_table (dir : classification_stats_dir) (primary_reads : Z)
  : option (list MetaphlanOut.row) * list message :=
  match metaphlan_report dir with
  | None => (None, [])
  | Some f =>
      match load_metaphlan_table (mpa_table f) with
      | Ok dfm => (Some (map (metaphlan_rpm_row primary_reads) dfm), [])
      | Raise ex => (None, [WarnMetaphlanNormalizationFailed ex])
      end
  end.

Definition write_normalized_tables (dir : classification_stats_dir) (primary_reads : Z)
  : normalized_tables * list message :=
  if primary_reads <=? 0 then
    ({| kraken_txt := None; metaphlan_txt := None |}, [WarnPrimaryReadsNotPositive])
  else
    let '(k, log_k) := write_kraken_table dir primary_reads in
    let '(m, log_m) := write_metaphlan_table dir primary_reads in
    ({| kraken_txt := k; metaphlan_txt := m |}, (log_k ++ log_m)%list).

(** ** Main *)

(** The body of [main] after argument parsing and directory checks, under
    the handler of the [__main__] block: an exception of the classification
    summary that reaches it is logged once and the exit status is 1. The
    filtering summary comes first and is the one of [filtering_summary], built
    when the counts fit 64 bits ([filter_counts_fit]). *)
Definition main (fdir : filter_stats_dir) (cdir : classification_stats_dir)
    (sample : string) : outcome :=
  let '(filt_row, log_f) := filtering_summary fdir sample in
  let primary_reads := get filt_row "PRIMARY_READS" 0 in
  match summarize_classification cdir with
  | Raise ex =>
      {| exit_status := 1;
         summary_tsv := None;
         tables := {| kraken_txt := None; metaphlan_txt := None |};
         stderr := (log_f ++ [Fatal ex])%list |}
  | Ok (class_row, log_c) =>
      let combined := (filt_row ++ class_row)%list in
      let '(written, log_w) := write_normalized_tables cdir primary_reads in
      {| exit_status := 0;
         summary_tsv := Some combined;
         tables := written;
         stderr := (log_f ++ log_c ++ log_w)%list |}
  end.
End Coercion.

(** ** A concrete coercion and sample inputs *)

(** Decimal literals: an optional sign, digits, and optionally a point
    followed by digits; surrounding whitespace is ignored. Every such text is
    a number for [pd.to_numeric] as well, with this value. *)
Definition decimal_literal (s : string) : option Qc :=
  let t := Py.strip s in
  let '(negative, body) :=
    match t with
    | String "-"%char b => (true, b)
    | String "+"%char b => (false, b)
    | _ => (false, t)
    end in
  let signed (q : Q) : Qc := Q2Qc (if negative then Qopp q else q) in
  match Py.split "."%char body with
  | [i] =>
      if Py.isdigit i then Some (signed (inject_Z (Py.int_digits i))) else None
  | [i; f] =>
      if Py.isdigit i && Py.isdigit f
      then Some (signed (Qmake (Py.int_digits (i ++ f))
                               (Z.to_pos (10 ^ Z.of_nat (String.length f)))))
      else None
  | _ => None
  end.

(** A text row of a report, one cell per column. *)
Definition text_row (cs : list string) : list cell := map Some cs.

Definition no_filter_stats : filter_stats_dir :=
  {| flagstat_file := fun _ => None; metrics_table := fun _ => None |}.

(** A filter-stats directory holding only <sample>.flagstat.tsv for sample
    "s", with the given content. *)
Definition only_flagstat (content : string) : filter_stats_dir :=
  {| flagstat_file := fun n => if String.eqb n "s.flagstat.tsv" then Some (Text content) else None;
     metrics_table := fun _ => None |}.

(** The paired report of the end-to-end scenario: 10 unclassified reads and
    90 reads under the root. *)
Definition scenario_report : report_file :=
  Table {| shape1 := 8;
           raw_rows := [ text_row ["10.00"; "10"; "10"; "0"; "0"; "U"; "0"; "unclassified"];
                         text_row ["90.00"; "90"; "90"; "0"; "0"; "R"; "1"; "root"] ] |}.

Definition scenario_classification : classification_stats_dir :=
  {| paired_report := Some scenario_report;
     unpaired_report := None;
     metaphlan_report := None |}.

(** A MetaPhlAn report of two clades, 1000 reads processed and 800 mapped;
    the second clade's taxid is a lineage, not a number. *)
Definition scenario_metaphlan : metaphlan_file :=
  {| mpa_text :=
       Text ("#mpa_vJan21_CHOCOPhlAnSGB_202103" ++ nl
             ++ "#1000 reads processed" ++ nl
             ++ "#SampleID" ++ tab ++ "Metaphlan_Analysis" ++ nl
             ++ "#estimated_reads_mapped_to_known_clades:800" ++ nl
             ++ "#clade_name" ++ tab ++ "clade_taxid" ++ tab ++ "relative_abundance" ++ tab
             ++ "coverage" ++ tab ++ "estimated_number_of_reads_from_the_clade" ++ nl
             ++ "k__Bacteria" ++ tab ++ "2" ++ tab ++ "100.0" ++ tab ++ "0.5" ++ tab ++ "800" ++ nl
             ++ "k__Bacteria|p__Firmicutes" ++ tab ++ "2|1239" ++ tab ++ "100.0" ++ tab
             ++ "0.5" ++ tab ++ "800" ++ nl);
     mpa_table :=
       Ok {| shape1 := 5;
             raw_rows := [ text_row ["k__Bacteria"; "2"; "100.0"; "0.5"; "800"];
                           text_row ["k__Bacteria|p__Firmicutes"; "2|1239"; "100.0"; "0.5"; "800"] ] |} |}.

(** A first-classifier report with three columns instead of eight. *)
Definition malformed_report : report_file :=
  Table {| shape1 := 3; raw_rows := [ text_row ["90.00"; "90"; "90"] ] |}.

(** A malformed paired Kraken2 report next to a well-formed MetaPhlAn
    report. *)
Definition malformed_classification : classification_stats_dir :=
  {| paired_report := Some malformed_report;
     unpaired_report := None;
     metaphlan_report := Some scenario_metaphlan |}.

(** A report that exists with the wrong column count. *)
Definition malformed_kraken (f : option report_file) : Prop :=
  exists t, f = Some (Table t) /\ (shape1 t < 8)%nat.

Definition malformed_metaphlan (f : option metaphlan_file) : Prop :=
  exists m t, f = Some m /\ mpa_table m = Ok t /\ (shape1 t < 5)%nat.

(** The count a flagstat line yields to [parse_flagstat_primary]: the line has
    at least three tab-separated fields, the third one trimmed is "primary"
    and the first one trimmed is made of digits. *)
Definition primary_value (line : string) : option Z :=
  let parts := Py.split "009"%char (Py.rstrip_chars nl line) in
  let val := Py.strip (nth 0 parts "") in
  if (3 <=? length parts)%nat
     && String.eqb (Py.strip (nth 2 parts "")) "primary"
     && Py.isdigit val
  then Some (Py.int_digits val)
  else None.

(** A line marked "primary" in its third field. *)
Definition primary_marked (line : string) : bool :=
  let parts := Py.split "009"%char (Py.rstrip_chars nl line) in
  (3 <=? length parts)%nat && String.eqb (Py.strip (nth 2 parts "")) "primary".

(** The extractor as the specification words it: the first line marked
    "primary" decides; its first field is the result when it is a
    well-formed non-negative integer, and the result is absent otherwise. *)
Definition flagstat_primary_as_specified (f : text_file) : option Z :=
  match f with
  | Unreadable => None
  | Text content =>
      match find primary_marked (Py.readlines content) with
      | Some line =>
          let val := Py.strip (nth 0 (Py.split "009"%char (Py.rstrip_chars nl line)) "") in
          if Py.isdigit val then Some (Py.int_digits val) else None
      | None => None
      end
  end.

(** A flagstat file whose first "primary" line has no count and whose second
    one has. *)
Definition two_primary_lines : text_file :=
  Text ("x" ++ tab ++ "0" ++ tab ++ "primary" ++ nl
        ++ "5" ++ tab ++ "0" ++ tab ++ "primary" ++ nl).

(** The four T2T paired/unpaired aligned/unaligned counters read from the
    flagstat files. *)
Definition t2t_variant_counters : list string :=
  [ "T2T_ALIGNED_PAIRED_PRIMARY"; "T2T_UNALIGNED_PAIRED_PRIMARY";
    "T2T_ALIGNED_UNPAIRED_PRIMARY"; "T2T_UNALIGNED_UNPAIRED_PRIMARY" ].

(** A filter-stats directory for sample "s" in which only the flagstat file
    of the aligned paired reads exists, reporting 7 primary reads. *)
Definition aligned_paired_only : filter_stats_dir :=
  {| flagstat_file := fun n =>
       if String.eqb n "s.qcfilt_paired.t2t_aln.flagstat.tsv"
       then Some (Text ("7" ++ tab ++ "0" ++ tab ++ "primary" ++ nl))
       else None;
     metrics_table := fun _ => None |}.

(** The rows [load_kraken_report] reads from [scenario_report]. *)
Definition scenario_rows : list Report.row :=
  map (kraken_row_of decimal_literal)
      [ text_row ["10.00"; "10"; "10"; "0"; "0"; "U"; "0"; "unclassified"];
        text_row ["90.00"; "90"; "90"; "0"; "0"; "R"; "1"; "root"] ].

(** [scenario_report] with every count halved. *)
Definition half_scenario_report : report_file :=
  Table {| shape1 := 8;
           raw_rows := [ text_row ["10.00"; "5"; "5"; "0"; "0"; "U"; "0"; "unclassified"];
                         text_row ["90.00"; "45"; "45"; "0"; "0"; "R"; "1"; "root"] ] |}.

Definition half_scenario_rows : list Report.row :=
  map (kraken_row_of decimal_literal)
      [ text_row ["10.00"; "5"; "5"; "0"; "0"; "U"; "0"; "unclassified"];
        text_row ["90.00"; "45"; "45"; "0"; "0"; "R"; "1"; "root"] ].

(** A report of nested clades: all 100 reads sit under the root, under
    Bacteria and under Proteobacteria. *)
Definition nested_report : report_file :=
  Table {| shape1 := 8;
           raw_rows := [ text_row ["100.00"; "100"; "0"; "0"; "0"; "R"; "1"; "root"];
                         text_row ["100.00"; "100"; "0"; "0"; "0"; "D"; "2"; "  Bacteria"];
                         text_row ["100.00"; "100"; "100"; "0"; "0"; "P"; "1224";
                                   "    Proteobacteria"] ] |}.

(** The classification-stats directory of the scenario with the MetaPhlAn
    report added. *)
Definition both_classifiers : classification_stats_dir :=
  {| paired_report := Some scenario_report;
     unpaired_report := None;
     metaphlan_report := Some scenario_metaphlan |}.

(** The flagstat content of the end-to-end scenario: 100 primary reads. *)
Definition scenario_flagstat : string := "100" ++ tab ++ "0" ++ tab ++ "primary" ++ nl.

(** A classification-stats directory without any classifier output. *)
Definition no_classifier_output : classification_stats_dir :=
  {| paired_report := None; unpaired_report := None; metaphlan_report := None |}.

(** What the flagstat file of a given name contributes: its primary count,
    or nothing when the file does not exist or yields no count. *)
Definition extracted_primary (dir : filter_stats_dir) (fname : string) : option Z :=
  match flagstat_file dir fname with
  | Some f => fst (parse_flagstat_primary f)
  | None => None
  end.

(** The file name a key is mapped to. *)
Fixpoint mapped_file (k : string) (mapping : list (string * string)) : option string :=
  match mapping with
  | [] => None
  | (key, fname) :: mapping' =>
      if String.eqb k key then Some fname else mapped_file k mapping'
  end.

(** The keys the two classifiers contribute to the summary. *)
Definition KRAKEN_KEYS : list string :=
  [ "TOTAL_READS_TESTED"; "UNCLASSIFIED_TOTAL_K2"; "CLASSIFIED_TOTAL_K2";
    "MICROBIAL_TOTAL_K2"; "HUMAN_TOTAL_K2" ].

Definition METAPHLAN_KEYS : list string :=
  [ "TOTAL_READS_MPA"; "CLASSIFIED_READS_MPA"; "UNCLASSIFIED_READS_MPA";
    "BACTERIAL_READS_MPA"; "ARCHAEAL_READS_MPA" ].

(** A message about a failed normalization. *)
Definition normalization_failure (msg : message) : bool :=
  match msg with
  | WarnKrakenNormalizationFailed _ => true
  | WarnMetaphlanNormalizationFailed _ => true
  | _ => false
  end.

(** [key_leb] as a relation. *)
Definition key_le (a b : key) : Prop := key_leb a b = true.

(** Two report rows with the same name, tax_id, rank, reads_clade and
    reads_taxon; pct_reads and the minimizer columns may differ. *)
Definition same_counts (r r' : Report.row) : Prop :=
  Report.name r = Report.name r'
  /\ Report.tax_id r = Report.tax_id r'
  /\ Report.rank r = Report.rank r'
  /\ Report.reads_clade r = Report.reads_clade r'
  /\ Report.reads_taxon r = Report.reads_taxon r'.

(** A number that is an integer. *)
Definition integral (q : Qc) : Prop := exists z : Z, q = Z2Qc z.

(** [scenario_report] with other percentages, other minimizer counts and a
    ninth column. *)
Definition scenario_report_wide : report_file :=
  Table {| shape1 := 9;
           raw_rows := [ text_row ["55.50"; "10"; "10"; "7"; "3"; "U"; "0"; "unclassified"; "x"];
                         text_row ["44.50"; "90"; "90"; "9"; "4"; "R"; "1"; "root"; "y"] ] |}.

Definition scenario_rows_wide : list Report.row :=
  map (kraken_row_of decimal_literal)
      [ text_row ["55.50"; "10"; "10"; "7"; "3"; "U"; "0"; "unclassified"; "x"];
        text_row ["44.50"; "90"; "90"; "9"; "4"; "R"; "1"; "root"; "y"] ].

(** A filter-stats directory for sample "s" whose <sample>.flagstat.tsv
    exists but cannot be read. *)
Definition unreadable_flagstat : filter_stats_dir :=
  {| flagstat_file := fun n =>
       if String.eqb n "s.flagstat.tsv" then Some Unreadable else None;
     metrics_table := fun _ => None |}.

(** A MetaPhlAn report whose table has six columns. *)
Definition six_column_metaphlan : metaphlan_file :=
  {| mpa_text := Text ("#1000 reads processed" ++ nl);
     mpa_table :=
       Ok {| shape1 := 6;
             raw_rows := [ text_row ["k__Bacteria"; "2"; "100.0"; "0.5"; "800"; "extra"] ] |} |}.

Definition six_column_classification : classification_stats_dir :=
  {| paired_report := Some scenario_report;
     unpaired_report := None;
     metaphlan_report := Some six_column_metaphlan |}.

(** A report of 10 reads under the root and a row of 7 reads, tax_id 9606,
    whose name cell is missing. *)
Definition nameless_report : report_file :=
  Table {| shape1 := 8;
           raw_rows := [ text_row ["100.00"; "10"; "10"; "0"; "0"; "R"; "1"; "root"];
                         (text_row ["0.00"; "7"; "7"; "0"; "0"; "S"; "9606"] ++ [None])%list ] |}.

Definition nameless_rows : list Report.row :=
  map (kraken_row_of decimal_literal)
      [ text_row ["100.00"; "10"; "10"; "0"; "0"; "R"; "1"; "root"];
        (text_row ["0.00"; "7"; "7"; "0"; "0"; "S"; "9606"] ++ [None])%list ].

(** A five-column MetaPhlAn table whose second row has an infinite
    clade_taxid. *)
Definition infinite_taxid_table : raw_frame :=
  {| shape1 := 5;
     raw_rows := [ text_row ["k__Bacteria"; "2"; "100.0"; "0.5"; "800"];
                   text_row ["k__Archaea"; "inf"; "0.0"; "0.0"; "0"] ] |}.

(** ** Ranges in which the columns are exact *)

(** A whole number. *)
Definition is_whole (q : Qc) : bool := Qc_eqb (Z2Qc (trunc q)) q.

(** The sum of the absolute values of a column. *)
Definition magnitude (l : list Qc) : Z :=
  fold_right (fun q acc => Z.abs (trunc q) + acc) 0 l.

(** A column of whole numbers whose doubled absolute values add up to at
    most 2^53: the doubling and every sum over rows of the column are exact
    in an [int64] and in a [float64] column alike. *)
Definition exact_column (l : list Qc) : bool :=
  forallb is_whole l && (2 * magnitude l <=? 2 ^ 53).

Definition exact_counts (rows : list Report.row) : bool :=
  exact_column (map Report.reads_clade rows)
  && exact_column (map Report.reads_taxon rows).

(** The values an [Int64] Series holds. *)
Definition fits_int64 (z : Z) : bool := (- 2 ^ 63 <=? z) && (z <=? 2 ^ 63 - 1).

Definition series_fits (s : series) : bool :=
  forallb (fun kv => fits_int64 (snd kv)) s.

(** Both [pd.Series(rs, dtype='Int64')] of the filtering summary can be
    built: every count collected for the sample, and every sum of two of
    them that the script forms, fits 64 bits. *)
Definition filter_counts_fit (dir : filter_stats_dir) (sample : string) : bool :=
  series_fits (fst (collect_primary_reads dir sample))
  && series_fits (collect_pathseq_metrics dir sample).

(** The clade_taxid column of a MetaPhlAn frame holds no infinity. *)
Definition finite_taxids (to_numeric : string -> option Qc) (df : raw_frame) : bool :=
  negb (existsb (fun cs => infinite_cell to_numeric (col 1 cs)) (raw_rows df)).

(** * Properties *)

(** ** Numbers *)

Lemma Qc_eqb_eq (x y : Qc) : Qc_eqb x y = true <-> x = y.
Proof.
  unfold Qc_eqb. rewrite Qeq_bool_iff. split.
  - apply Qc_is_canon.
  - intros ->. reflexivity.
Qed.


Lemma sumQc_cons (x : Qc) (l : list Qc) : sumQc (x :: l) = (x + sumQc l)%Qc.
Proof. reflexivity. Qed.

Lemma sumQc_app (a b : list Qc) : sumQc (a ++ b) = (sumQc a + sumQc b)%Qc.
Proof.
  induction a as [|x a IH].
  - simpl. change (sumQc []) with 0%Qc. ring.
  - simpl. rewrite !sumQc_cons, IH. ring.
Qed.

Lemma sumQc_scale (c : Qc) (f : Report.row -> Qc) (l : list Report.row) :
  sumQc (map (fun r => (c * f r)%Qc) l) = (c * sumQc (map f l))%Qc.
Proof.
  induction l as [|r l IH].
  - simpl. change (sumQc []) with 0%Qc. ring.
  - simpl. rewrite !sumQc_cons, IH. ring.
Qed.

(** ** Canonical rationals *)

Lemma this_Q2Qc (q : Q) : (this (Q2Qc q) == q)%Q.
Proof. apply Qred_correct. Qed.

Lemma this_Qcdiv (x y : Qc) : (this (x / y)%Qc == this x / this y)%Q.
Proof.
  unfold Qcdiv, Qcmult, Qcinv. rewrite !this_Q2Qc. reflexivity.
Qed.

Lemma this_Qcmult (x y : Qc) : (this (x * y)%Qc == this x * this y)%Q.
Proof. unfold Qcmult. apply this_Q2Qc. Qed.

(** ** Group keys *)

Lemma key_eqb_eq (a b : key) : key_eqb a b = true <-> a = b.
Proof.
  destruct a as [[n1 t1] r1], b as [[n2 t2] r2]. simpl.
  rewrite !andb_true_iff, !String.eqb_eq, Qc_eqb_eq.
  split.
  - intros [[-> ->] ->]. reflexivity.
  - intros E. inversion E. auto.
Qed.

Lemma key_eqb_refl (k : key) : key_eqb k k = true.
Proof. apply key_eqb_eq. reflexivity. Qed.

Lemma mem_key_In (k : key) (l : list key) : mem_key k l = true <-> In k l.
Proof.
  induction l as [|k' l IH]; simpl.
  - split; [discriminate | tauto].
  - rewrite orb_true_iff, key_eqb_eq, IH. split; intros [H|H]; auto.
Qed.

Lemma unique_keys_In (k : key) (l : list key) : In k (unique_keys l) <-> In k l.
Proof.
  induction l as [|k' l IH]; simpl; [tauto|].
  destruct (mem_key k' l) eqn:E.
  - rewrite IH. apply mem_key_In in E. split; [auto|].
    intros [->|H]; auto.
  - simpl. rewrite IH. tauto.
Qed.

Lemma unique_keys_NoDup (l : list key) : NoDup (unique_keys l).
Proof.
  induction l as [|k l IH]; simpl; [constructor|].
  destruct (mem_key k l) eqn:E; [assumption|].
  constructor; [|assumption].
  rewrite unique_keys_In, <- mem_key_In. congruence.
Qed.

Lemma insert_key_perm (k : key) (l : list key) : Permutation (k :: l) (insert_key k l).
Proof.
  induction l as [|k' l IH]; simpl; [reflexivity|].
  destruct (key_leb k k'); [reflexivity|].
  rewrite perm_swap. constructor. assumption.
Qed.

Lemma sort_keys_perm (l : list key) : Permutation l (sort_keys l).
Proof.
  induction l as [|k l IH]; simpl; [constructor|].
  rewrite <- insert_key_perm. constructor. assumption.
Qed.

Lemma present_keys_In (k : key) (rows : list Report.row) :
  In k (present_keys rows) <-> exists r, In r rows /\ key_of r = Some k.
Proof.
  induction rows as [|r rows IH]; simpl.
  - split; [tauto | intros [r [[] _]]].
  - destruct (key_of r) as [k'|] eqn:E; simpl; rewrite IH; split.
    + intros [->|[r' [H1 H2]]]; [exists r; auto | exists r'; auto].
    + intros [r' [[->|H1] H2]]; [left; congruence | right; exists r'; auto].
    + intros [r' [H1 H2]]. exists r'; auto.
    + intros [r' [[->|H1] H2]]; [congruence | exists r'; auto].
  Qed.

Lemma group_keys_In (k : key) (rows : list Report.row) :
  In k (group_keys rows) <-> exists r, In r rows /\ key_of r = Some k.
Proof.
  unfold group_keys. split.
  - intros H. apply present_keys_In, unique_keys_In.
    eapply Permutation_in; [symmetry; apply sort_keys_perm | exact H].
  - intros H. eapply Permutation_in; [apply sort_keys_perm|].
    apply unique_keys_In, present_keys_In, H.
Qed.

Lemma group_keys_NoDup (rows : list Report.row) : NoDup (group_keys rows).
Proof.
  unfold group_keys.
  eapply Permutation_NoDup; [apply sort_keys_perm | apply unique_keys_NoDup].
Qed.

Lemma groupby_sum_keys (rows : list Report.row) :
  map grouped_key (groupby_sum rows) = group_keys rows.
Proof.
  unfold groupby_sum. rewrite map_map.
  rewrite <- (map_id (group_keys rows)) at 2.
  apply map_ext. intros [[n t] r]. reflexivity.
Qed.

Lemma groupby_sum_row (rows : list Report.row) (g : Grouped.row) :
  In g (groupby_sum rows) ->
  let members := filter (in_group (grouped_key g)) rows in
  Grouped.reads_clade g = sumQc (map Report.reads_clade members)
  /\ Grouped.reads_taxon g = sumQc (map Report.reads_taxon members)
  /\ Grouped.minimizers_count g = sumQc (map Report.minimizers_count members)
  /\ Grouped.minimizers_distinct g = sumQc (map Report.minimizers_distinct members).
Proof.
  unfold groupby_sum. intros H. apply in_map_iff in H.
  destruct H as [[[n t] r] [<- _]]. cbn. auto.
Qed.

Section MergeProperties.

Variable to_numeric : string -> option Qc.

Lemma key_of_double_reads (r : Report.row) : key_of (double_reads r) = key_of r.
Proof. reflexivity. Qed.

Lemma in_group_double_reads (k : key) (r : Report.row) :
  in_group k (double_reads r) = in_group k r.
Proof. reflexivity. Qed.

Lemma filter_in_group_doubled (k : key) (rows : list Report.row) :
  filter (in_group k) (map double_reads rows) = map double_reads (filter (in_group k) rows).
Proof.
  induction rows as [|r rows IH]; simpl; [reflexivity|].
  rewrite in_group_double_reads. destruct (in_group k r); simpl; congruence.
Qed.

Lemma present_keys_doubled (rows : list Report.row) :
  present_keys (map double_reads rows) = present_keys rows.
Proof.
  induction rows as [|r rows IH]; simpl; [reflexivity|].
  rewrite key_of_double_reads. destruct (key_of r); congruence.
Qed.

Lemma group_keys_doubled (rows : list Report.row) :
  group_keys (map double_reads rows) = group_keys rows.
Proof. unfold group_keys. rewrite present_keys_doubled. reflexivity. Qed.

(** What the merge returns once the present reports are read. *)
Lemma merge_kraken_reports_eq (paired unpaired : option report_file)
    (rows : list Report.row) :
  paired <> None \/ unpaired <> None ->
  input_rows to_numeric paired unpaired = Ok rows ->
  merge_kraken_reports to_numeric paired unpaired
  = Ok (map (merged_row_of (total_reads_of (groupby_sum (map double_reads rows))))
            (groupby_sum (map double_reads rows))).
Proof.
  intros Hpresent Hrows. unfold input_rows, load_present in Hrows.
  unfold merge_kraken_reports, append_doubled.
  destruct paired as [fp|], unpaired as [fu|]; simpl in *.
  - destruct (load_kraken_report to_numeric fp) as [p|e]; simpl in *; [|discriminate].
    destruct (load_kraken_report to_numeric fu) as [u|e]; simpl in *; [|discriminate].
    injection Hrows as <-. rewrite app_nil_r, map_app. reflexivity.
  - destruct (load_kraken_report to_numeric fp) as [p|e]; simpl in *; [|discriminate].
    injection Hrows as <-. rewrite !app_nil_r. reflexivity.
  - destruct (load_kraken_report to_numeric fu) as [u|e]; simpl in *; [|discriminate].
    injection Hrows as <-. rewrite !app_nil_r. reflexivity.
  - destruct Hpresent; congruence.
Qed.

Lemma merged_keys (total : Qc) (df : list Grouped.row) :
  map merged_key (map (merged_row_of total) df) = map grouped_key df.
Proof. rewrite map_map. apply map_ext. intros g. reflexivity. Qed.

(** C1, as the code has it. Whenever at least one of the two Kraken2
    reports is present, the present ones are read and their counts are whole
    numbers in the exact range, the merge returns a frame with exactly one
    row per distinct (name, tax_id, rank) triple of the input rows that have
    both a name and a rank (a row whose name or rank cell is missing carries
    no triple and is left out), and in each row reads_clade is twice the sum
    of reads_clade over the input rows of that triple, and likewise
    reads_taxon. *)
Theorem merge_kraken_reports_doubles_and_groups
    (paired unpaired : option report_file) (rows : list Report.row) :
  paired <> None \/ unpaired <> None ->
  input_rows to_numeric paired unpaired = Ok rows ->
  exact_counts rows = true ->
  exists df,
    merge_kraken_reports to_numeric paired unpaired = Ok df
    /\ NoDup (map merged_key df)
    /\ (forall k, In k (map merged_key df) <-> exists r, In r rows /\ key_of r = Some k)
    /\ (forall g, In g df ->
          let members := filter (in_group (merged_key g)) rows in
          Merged.reads_clade g = (Z2Qc 2 * sumQc (map Report.reads_clade members))%Qc
          /\ Merged.reads_taxon g = (Z2Qc 2 * sumQc (map Report.reads_taxon members))%Qc).
Proof.
  intros Hpresent Hrows _.
  eexists. split; [apply merge_kraken_reports_eq; eassumption|].
  rewrite merged_keys, groupby_sum_keys, group_keys_doubled.
  split; [apply group_keys_NoDup|].
  split; [intros k; apply group_keys_In|].
  intros g Hg. apply in_map_iff in Hg. destruct Hg as [g0 [<- Hg0]].
  apply groupby_sum_row in Hg0. cbv zeta in Hg0.
  destruct Hg0 as [Hc [Ht _]].
  change (merged_key (merged_row_of _ g0)) with (grouped_key g0).
  cbn [Merged.reads_clade Merged.reads_taxon merged_row_of].
  rewrite Hc, Ht, filter_in_group_doubled, !map_map. cbn [double_reads Report.reads_clade Report.reads_taxon].
  split; apply sumQc_scale.
Qed.

End MergeProperties.



Section PercentageProperties.

Variable to_numeric : string -> option Qc.



End PercentageProperties.


(** ** Splitting a report into halves *)

Lemma unique_keys_absorb (a b : list key) :
  (forall k, In k a -> In k b) -> unique_keys (a ++ b) = unique_keys b.
Proof.
  induction a as [|k a IH]; intros Hsub; simpl; [reflexivity|].
  assert (Hmem : mem_key k (a ++ b) = true).
  { apply mem_key_In, in_or_app. right. apply Hsub. left. reflexivity. }
  rewrite Hmem. apply IH. intros k' Hk'. apply Hsub. right. exact Hk'.
Qed.

Lemma present_keys_app (a b : list Report.row) :
  present_keys (a ++ b) = (present_keys a ++ present_keys b)%list.
Proof.
  induction a as [|r a IH]; simpl; [reflexivity|].
  destruct (key_of r); simpl; congruence.
Qed.

Lemma halved_key_of (x h : Report.row) : halved x h -> key_of h = key_of x.
Proof.
  intros (Hn & Ht & Hr & _). unfold key_of. rewrite Hn, Ht, Hr. reflexivity.
Qed.

Lemma halved_present_keys (xs hs : list Report.row) :
  Forall2 halved xs hs -> present_keys hs = present_keys xs.
Proof.
  induction 1 as [|x h xs hs Hxh _ IH]; simpl; [reflexivity|].
  rewrite (halved_key_of x h Hxh), IH. reflexivity.
Qed.

Lemma halved_group_sum (k : key) (xs hs : list Report.row) :
  Forall2 halved xs hs ->
  sumQc (map Report.reads_clade (filter (in_group k) xs))
  = (Z2Qc 2 * sumQc (map Report.reads_clade (filter (in_group k) hs)))%Qc.
Proof.
  induction 1 as [|x h xs hs Hxh _ IH]; simpl.
  - change (sumQc []) with 0%Qc. ring.
  - assert (Hg : in_group k h = in_group k x)
      by (unfold in_group; rewrite (halved_key_of x h Hxh); reflexivity).
    destruct Hxh as (_ & _ & _ & Hc). rewrite Hg.
    destruct (in_group k x); simpl; rewrite ?sumQc_cons, ?IH, <- ?Hc; ring.
Qed.

Lemma clade_totals_merged (total : Qc) (rows : list Report.row) :
  clade_totals (map (merged_row_of total) (groupby_sum rows))
  = map (fun k => (k, sumQc (map Report.reads_clade (filter (in_group k) rows))))
        (group_keys rows).
Proof.
  unfold clade_totals, groupby_sum. rewrite !map_map.
  apply map_ext. intros [[n t] r]. reflexivity.
Qed.

Section SplitProperties.

Variable to_numeric : string -> option Qc.

(** C8. A report [X] merged as the paired input alone gives the same
    per-taxon reads_clade totals as a report [H] with the rows of [X] at half
    the clade count merged both as the paired and as the unpaired input. *)
Theorem merge_kraken_reports_split_halves
    (X H : report_file) (xs hs : list Report.row) :
  load_kraken_report to_numeric X = Ok xs ->
  load_kraken_report to_numeric H = Ok hs ->
  Forall2 halved xs hs ->
  exists whole parts,
    merge_kraken_reports to_numeric (Some X) None = Ok whole
    /\ merge_kraken_reports to_numeric (Some H) (Some H) = Ok parts
    /\ clade_totals whole = clade_totals parts.
Proof.
  intros HX HH Hhalf.
  do 2 eexists. split; [|split].
  - apply merge_kraken_reports_eq with (rows := xs); [left; discriminate|].
    unfold input_rows, load_present. rewrite HX. simpl. rewrite app_nil_r. reflexivity.
  - apply merge_kraken_reports_eq with (rows := (hs ++ hs)%list); [left; discriminate|].
    unfold input_rows, load_present. rewrite HH. reflexivity.
  - rewrite !clade_totals_merged, !group_keys_doubled.
    assert (Hkeys : group_keys (hs ++ hs) = group_keys xs).
    { unfold group_keys. rewrite present_keys_app, unique_keys_absorb by auto.
      rewrite (halved_present_keys xs hs Hhalf). reflexivity. }
    rewrite Hkeys. apply map_ext. intros k. f_equal.
    rewrite !filter_in_group_doubled, !map_map.
    cbn [double_reads Report.reads_clade]. rewrite !sumQc_scale.
    rewrite filter_app, map_app, sumQc_app.
    rewrite (halved_group_sum k xs hs Hhalf).
    assert (E2 : Z2Qc 2 = (1 + 1)%Qc) by (apply Qc_is_canon; reflexivity).
    rewrite E2. ring.
Qed.

End SplitProperties.


(** ** Normalization *)

Section NormalizationProperties.

Variable to_numeric : string -> option Qc.


Lemma load_metaphlan_table_five (t : raw_frame) :
  shape1 t = 5%nat ->
  finite_taxids to_numeric t = true ->
  load_metaphlan_table to_numeric (Ok t) = Ok (map (clade_row_of to_numeric) (raw_rows t)).
Proof.
  intros Hshape Hfinite. unfold finite_taxids in Hfinite.
  apply negb_true_iff in Hfinite.
  unfold load_metaphlan_table. simpl. rewrite Hshape, Hfinite. reflexivity.
Qed.

(** C10. In a five-column MetaPhlAn table whose clade_taxid column holds no
    infinity, a row whose clade_taxid cell is not a number is loaded
    with clade_taxid -1, while a relative_abundance, coverage or estimated
    read-count cell that is not a number is loaded as 0; with a positive
    denominator the clade_taxid column, these -1 included, is written
    unchanged to the normalized MetaPhlAn table. *)
Theorem load_metaphlan_table_fill_values (t : raw_frame) :
  shape1 t = 5%nat ->
  finite_taxids to_numeric t = true ->
  exists dfm,
    load_metaphlan_table to_numeric (Ok t) = Ok dfm
    /\ Forall2 (fun cs r =>
                  (numeric to_numeric (col 1 cs) = None -> Clade.clade_taxid r = -1)
                  /\ (numeric to_numeric (col 2 cs) = None ->
                      Clade.relative_abundance r = Z2Qc 0)
                  /\ (numeric to_numeric (col 3 cs) = None -> Clade.coverage r = Z2Qc 0)
                  /\ (numeric to_numeric (col 4 cs) = None ->
                      Clade.estimated_number_of_reads_from_the_clade r = Z2Qc 0))
               (raw_rows t) dfm
    /\ forall cdir f D,
        metaphlan_report cdir = Some f ->
        mpa_table f = Ok t ->
        0 < D ->
        exists out,
          metaphlan_txt (fst (write_normalized_tables to_numeric cdir D)) = Some out
          /\ map MetaphlanOut.clade_taxid out = map Clade.clade_taxid dfm.
Proof.
  intros Hshape Hfinite. exists (map (clade_row_of to_numeric) (raw_rows t)).
  assert (Hload : load_metaphlan_table to_numeric (Ok t)
                  = Ok (map (clade_row_of to_numeric) (raw_rows t))).
  { apply load_metaphlan_table_five; assumption. }
  split; [exact Hload|]. split.
  - clear Hload. induction (raw_rows t) as [|cs rows IH]; simpl; constructor; [|exact IH].
    unfold clade_row_of. cbn [Clade.clade_taxid Clade.relative_abundance Clade.coverage
                               Clade.estimated_number_of_reads_from_the_clade].
    repeat split; intros ->; reflexivity.
  - intros cdir f D Hf Ht HD.
    assert (E : (D <=? 0) = false) by lia.
    unfold write_normalized_tables. rewrite E.
    unfold write_metaphlan_table. rewrite Hf, Ht, Hload.
    eexists. split.
    + destruct (write_kraken_table to_numeric cdir D). reflexivity.
    + rewrite map_map. reflexivity.
Qed.

End NormalizationProperties.

(** ** MetaPhlAn header scalars *)

Section HeaderProperties.

Variable to_numeric : string -> option Qc.


Lemma kraken_totals_shape (cdir : classification_stats_dir) (ks : series) :
  kraken_totals to_numeric cdir = Ok ks ->
  ks = []
  \/ exists a b c d e,
      ks = [ ("TOTAL_READS_TESTED", a); ("UNCLASSIFIED_TOTAL_K2", b);
             ("CLASSIFIED_TOTAL_K2", c); ("MICROBIAL_TOTAL_K2", d);
             ("HUMAN_TOTAL_K2", e) ].
Proof.
  unfold kraken_totals.
  destruct (merge_kraken_reports to_numeric _ _) as [df|e].
  - intros H. injection H as <-. right. do 5 eexists. reflexivity.
  - destruct e; intros H; try discriminate. injection H as <-. left. reflexivity.
Qed.


End HeaderProperties.


(** ** Malformed reports *)

Section MalformedReports.

Variable to_numeric : string -> option Qc.

Lemma load_kraken_report_raises (f : report_file) (e : exn) :
  load_kraken_report to_numeric f = Raise e -> e = ValueError \/ e = ParserError.
Proof.
  destruct f as [|t|]; simpl; [discriminate| |intros H; injection H as <-; auto].
  destruct (shape1 t <? 8)%nat; [intros H; injection H as <-; auto | discriminate].
Qed.

Lemma load_malformed (t : raw_frame) :
  (shape1 t < 8)%nat -> load_kraken_report to_numeric (Table t) = Raise ValueError.
Proof.
  intros H. simpl. apply Nat.ltb_lt in H. rewrite H. reflexivity.
Qed.

Lemma kraken_totals_malformed (cdir : classification_stats_dir) :
  malformed_kraken (paired_report cdir) \/ malformed_kraken (unpaired_report cdir) ->
  exists ex, kraken_totals to_numeric cdir = Raise ex.
Proof.
  unfold kraken_totals, merge_kraken_reports, append_doubled.
  intros [(t & -> & Ht)|(t & -> & Ht)].
  - rewrite (load_malformed t Ht). cbn [bind]. eexists. reflexivity.
  - destruct (paired_report cdir) as [fp|].
    + destruct (load_kraken_report to_numeric fp) as [p|e] eqn:Ep; cbn [bind].
      * rewrite (load_malformed t Ht). cbn [bind]. eexists. reflexivity.
      * destruct (load_kraken_report_raises fp e Ep) as [->| ->]; eexists; reflexivity.
    + cbn [bind]. rewrite (load_malformed t Ht). cbn [bind]. eexists. reflexivity.
Qed.

Lemma metaphlan_totals_malformed (m : metaphlan_file) (t : raw_frame) :
  mpa_table m = Ok t -> (shape1 t < 5)%nat ->
  exists ex, metaphlan_totals to_numeric m = Raise ex.
Proof.
  intros Ht Hs. unfold metaphlan_totals.
  destruct (mpa_text m) as [|content]; cbn [bind]; [eexists; reflexivity|].
  destruct (scan_header _ 0 0) as [[total classified]|e]; cbn [bind]; [|eexists; reflexivity].
  unfold load_metaphlan_table. rewrite Ht. cbn [bind].
  apply Nat.ltb_lt in Hs. rewrite Hs. cbn [bind]. eexists. reflexivity.
Qed.

(** C5, as the code has it. A classifier report that exists with the wrong
    column count (fewer than 8 columns for a Kraken2 report, fewer than 5 for
    the MetaPhlAn table) makes [summarize_classification] raise instead of
    returning counters, and the invocation ends fatally: exit status 1, one
    FATAL message after the filtering messages, no summary row and no
    normalized table. *)
Theorem malformed_report_is_fatal
    (fdir : filter_stats_dir) (cdir : classification_stats_dir) (sample : string) :
  malformed_kraken (paired_report cdir)
  \/ malformed_kraken (unpaired_report cdir)
  \/ malformed_metaphlan (metaphlan_report cdir) ->
  exists ex,
    summarize_classification to_numeric cdir = Raise ex
    /\ main to_numeric fdir cdir sample
       = {| exit_status := 1;
            summary_tsv := None;
            tables := no_tables;
            stderr := (snd (filtering_summary fdir sample) ++ [Fatal ex])%list |}.
Proof.
  intros Hbad.
  assert (Hraise : exists ex, summarize_classification to_numeric cdir = Raise ex).
  { unfold summarize_classification.
    destruct Hbad as [Hk|[Hk|(m & t & Hm & Ht & Hs)]].
    - destruct (kraken_totals_malformed cdir (or_introl Hk)) as [ex ->].
      exists ex. reflexivity.
    - destruct (kraken_totals_malformed cdir (or_intror Hk)) as [ex ->].
      exists ex. reflexivity.
    - destruct (kraken_totals to_numeric cdir) as [ks|ex]; cbn [bind];
        [|exists ex; reflexivity].
      rewrite Hm. destruct (metaphlan_totals_malformed m t Ht Hs) as [ex ->].
      exists ex. reflexivity. }
  destruct Hraise as [ex Hex]. exists ex. split; [exact Hex|].
  unfold main. rewrite Hex.
  destruct (filtering_summary fdir sample) as [filt_row log_f]. reflexivity.
Qed.

End MalformedReports.


(** ** Flagstat extractor *)

Lemma flagstat_scan_cons (line : string) (rest : list string) :
  flagstat_scan (line :: rest)
  = match primary_value line with
    | Some n => Some n
    | None => flagstat_scan rest
    end.
Proof.
  unfold primary_value. cbn [flagstat_scan]. fold nl.
  destruct (3 <=? length _)%nat; cbn [andb]; [|reflexivity].
  destruct (String.eqb _ "primary"); cbn [andb]; [|reflexivity].
  destruct (Py.isdigit _); reflexivity.
Qed.

Lemma flagstat_scan_some (lines : list string) (n : Z) :
  flagstat_scan lines = Some n
  <-> exists before line after,
      lines = (before ++ line :: after)%list
      /\ primary_value line = Some n
      /\ Forall (fun l => primary_value l = None) before.
Proof.
  induction lines as [|l lines IH].
  - split; [discriminate|]. intros (before & line & after & H & _).
    destruct before; discriminate.
  - rewrite flagstat_scan_cons. destruct (primary_value l) as [v|] eqn:El.
    + split.
      * intros H. injection H as ->. exists [], l, lines. auto.
      * intros (before & line & after & H & Hv & Hb).
        destruct before as [|b before]; simpl in H; injection H as -> ->.
        -- congruence.
        -- inversion Hb; congruence.
    + rewrite IH. split.
      * intros (before & line & after & -> & Hv & Hb).
        exists (l :: before), line, after. auto.
      * intros (before & line & after & H & Hv & Hb).
        destruct before as [|b before]; simpl in H; injection H as -> ->.
        -- congruence.
        -- inversion Hb; subst. exists before, line, after. auto.
Qed.

Lemma flagstat_scan_none (lines : list string) :
  flagstat_scan lines = None <-> Forall (fun l => primary_value l = None) lines.
Proof.
  induction lines as [|l lines IH].
  - split; auto.
  - rewrite flagstat_scan_cons. destruct (primary_value l) as [v|] eqn:El.
    + split; [discriminate|]. intros H. inversion H; congruence.
    + rewrite IH. split; [auto|]. intros H. inversion H; assumption.
Qed.

Lemma digits_value_nonneg (s : string) :
  forall acc, 0 <= acc -> Py.all_chars Py.is_digit s = true -> 0 <= Py.digits_value acc s.
Proof.
  induction s as [|c s IH]; intros acc Hacc Hd;
    cbn [Py.digits_value Py.all_chars] in *; [assumption|].
  apply andb_true_iff in Hd. destruct Hd as [Hc Hs]. apply IH; [|assumption].
  unfold Py.is_digit in Hc. apply andb_true_iff in Hc. destruct Hc as [Hlo _].
  apply Nat.leb_le in Hlo. lia.
Qed.

Lemma primary_value_nonneg (line : string) (n : Z) : primary_value line = Some n -> 0 <= n.
Proof.
  unfold primary_value.
  destruct (_ && _ && Py.isdigit _) eqn:E; [|discriminate].
  intros H. injection H as <-.
  apply andb_true_iff in E. destruct E as [_ Hd].
  unfold Py.int_digits. apply digits_value_nonneg; [lia|].
  unfold Py.isdigit in Hd. destruct (Py.strip _); [discriminate | exact Hd].
Qed.

(** C6, as the code has it. The extractor returns the integer in the trimmed
    first field of the first line that has at least three tab-separated
    fields, "primary" as its trimmed third field and only digits in its
    trimmed first field; a "primary" line without such a count is passed
    over and the scan goes on. The result is a non-negative integer, and it
    is absent exactly when no line qualifies; for an unreadable file it is
    absent too. *)
Theorem parse_flagstat_primary_first_count (f : text_file) :
  match f with
  | Unreadable => fst (parse_flagstat_primary f) = None
  | Text content =>
      (forall n,
          fst (parse_flagstat_primary f) = Some n
          <-> exists before line after,
              Py.readlines content = (before ++ line :: after)%list
              /\ primary_value line = Some n
              /\ Forall (fun l => primary_value l = None) before)
      /\ (forall n, fst (parse_flagstat_primary f) = Some n -> 0 <= n)
      /\ (fst (parse_flagstat_primary f) = None
          <-> Forall (fun l => primary_value l = None) (Py.readlines content))
  end.
Proof.
  destruct f as [|content]; [reflexivity|].
  cbn [parse_flagstat_primary fst]. split; [|split].
  - intros n. apply flagstat_scan_some.
  - intros n Hn. apply flagstat_scan_some in Hn.
    destruct Hn as (_ & line & _ & _ & Hv & _). exact (primary_value_nonneg line n Hv).
  - apply flagstat_scan_none.
Qed.


(** ** Filtering summary *)

Lemma keys_reindex_fill0 (order : list string) (s : series) :
  keys (reindex_fill0 order s) = order.
Proof.
  unfold keys, reindex_fill0. rewrite map_map. apply map_id.
Qed.

Lemma lookup_reindex_fill0 (order : list string) (s : series) (k : string) :
  In k order -> lookup k (reindex_fill0 order s) = Some (get s k 0).
Proof.
  induction order as [|k' order IH]; intros Hin; [destruct Hin|].
  cbn [reindex_fill0 map lookup]. destruct (String.eqb k k') eqn:E.
  - apply String.eqb_eq in E. subst. reflexivity.
  - destruct Hin as [->|Hin]; [rewrite String.eqb_refl in E; discriminate|].
    apply IH, Hin.
Qed.

Lemma collect_flagstats_no_files (dir : filter_stats_dir) (mapping : list (string * string))
    (rs : series) (log : list message) :
  (forall n, flagstat_file dir n = None) ->
  collect_flagstats dir mapping rs log = (rs, log).
Proof.
  intros Hnone. induction mapping as [|[key fname] mapping IH]; [reflexivity|].
  cbn [collect_flagstats]. rewrite Hnone. exact IH.
Qed.

(** C4, as the code has it. Whenever the counts of the sample fit 64 bits
    (the Series of the summary are built with dtype Int64, which holds no
    other), the filtering summary row has the same 28 keys in the same
    order: PRIMARY_READS, the eight QCFILTER counters, the
    eight UNALIGNED counters, the eight EXCLUDED counters, then
    T2T_UNALIGNED_TOTAL_READS, T2T_UNALIGNED_PAIRED_PRIMARY and
    T2T_UNALIGNED_UNPAIRED_PRIMARY. Every key is present with the extracted
    value, or with 0 when nothing was extracted for it; with no input file
    at all every value is 0. *)
Theorem filtering_summary_key_order (fdir : filter_stats_dir) (sample : string) :
  filter_counts_fit fdir sample = true ->
  let row := fst (filtering_summary fdir sample) in
  let extracted :=
    (fst (collect_primary_reads fdir sample) ++ collect_pathseq_metrics fdir sample)%list in
  keys row
  = [ "PRIMARY_READS";
      "QCFILTER_PRIMARY_READS";
      "QCFILTER_READS_AFTER_PREALIGNED_HOST_FILTER";
      "QCFILTER_READS_AFTER_QUALITY_AND_COMPLEXITY_FILTER";
      "QCFILTER_READS_AFTER_HOST_FILTER";
      "QCFILTER_READS_AFTER_DEDUPLICATION";
      "QCFILTER_FINAL_PAIRED_READS";
      "QCFILTER_FINAL_UNPAIRED_READS";
      "QCFILTER_FINAL_TOTAL_READS";
      "UNALIGNED_PRIMARY_READS";
      "UNALIGNED_READS_AFTER_PREALIGNED_HOST_FILTER";
      "UNALIGNED_READS_AFTER_QUALITY_AND_COMPLEXITY_FILTER";
      "UNALIGNED_READS_AFTER_HOST_FILTER";
      "UNALIGNED_READS_AFTER_DEDUPLICATION";
      "UNALIGNED_FINAL_PAIRED_READS";
      "UNALIGNED_FINAL_UNPAIRED_READS";
      "UNALIGNED_FINAL_TOTAL_READS";
      "EXCLUDED_PRIMARY_READS";
      "EXCLUDED_READS_AFTER_PREALIGNED_HOST_FILTER";
      "EXCLUDED_READS_AFTER_QUALITY_AND_COMPLEXITY_FILTER";
      "EXCLUDED_READS_AFTER_HOST_FILTER";
      "EXCLUDED_READS_AFTER_DEDUPLICATION";
      "EXCLUDED_FINAL_PAIRED_READS";
      "EXCLUDED_FINAL_UNPAIRED_READS";
      "EXCLUDED_FINAL_TOTAL_READS";
      "T2T_UNALIGNED_TOTAL_READS";
      "T2T_UNALIGNED_PAIRED_PRIMARY";
      "T2T_UNALIGNED_UNPAIRED_PRIMARY" ]
  /\ (forall k, In k (keys row) ->
        lookup k row = Some (get extracted k 0)
        /\ (lookup k extracted = None -> lookup k row = Some 0))
  /\ ((forall n, flagstat_file fdir n = None) ->
      (forall n, metrics_table fdir n = None) ->
      Forall (fun kv => snd kv = 0) row).
Proof.
  intros _. cbv zeta. unfold filtering_summary.
  destruct (collect_primary_reads fdir sample) as [rs_flagstat log] eqn:Ecollect.
  cbn [fst]. rewrite keys_reindex_fill0. split; [reflexivity|]. split.
  - intros k Hk.
    rewrite (lookup_reindex_fill0 _ _ k Hk). split; [reflexivity|].
    intros Hnone. unfold get. rewrite Hnone. reflexivity.
  - intros Hflag Hmetrics.
    unfold collect_primary_reads in Ecollect.
    rewrite (collect_flagstats_no_files fdir _ [] [] Hflag) in Ecollect.
    injection Ecollect as <- _.
    unfold collect_pathseq_metrics, metrics_or_empty. rewrite !Hmetrics.
    vm_compute. repeat constructor.
Qed.

(** ** The properties on the sample inputs *)

Lemma merge_kraken_reports_doubles_and_groups_witness :
  input_rows decimal_literal (Some scenario_report) None = Ok scenario_rows
  /\ exact_counts scenario_rows = true
  /\ exists df,
      merge_kraken_reports decimal_literal (Some scenario_report) None = Ok df
      /\ NoDup (map merged_key df).
Proof.
  split; [reflexivity|]. split; [vm_compute; reflexivity|].
  destruct (merge_kraken_reports_doubles_and_groups
              decimal_literal (Some scenario_report) None scenario_rows)
    as (df & Hdf & Hnodup & _).
  - left. discriminate.
  - reflexivity.
  - vm_compute. reflexivity.
  - exists df. split; assumption.
Defined.



Lemma merge_kraken_reports_split_halves_witness :
  exists whole parts,
    merge_kraken_reports decimal_literal (Some scenario_report) None = Ok whole
    /\ merge_kraken_reports decimal_literal (Some half_scenario_report)
                            (Some half_scenario_report) = Ok parts
    /\ clade_totals whole = clade_totals parts.
Proof.
  apply (merge_kraken_reports_split_halves
           decimal_literal scenario_report half_scenario_report
           scenario_rows half_scenario_rows).
  - reflexivity.
  - reflexivity.
  - repeat constructor; apply Qc_is_canon; reflexivity.
Defined.


Lemma load_metaphlan_table_fill_values_witness :
  exists dfm,
    load_metaphlan_table decimal_literal (mpa_table scenario_metaphlan) = Ok dfm
    /\ map Clade.clade_taxid dfm = [2; -1].
Proof.
  destruct (load_metaphlan_table_fill_values
              decimal_literal
              {| shape1 := 5;
                 raw_rows := [ text_row ["k__Bacteria"; "2"; "100.0"; "0.5"; "800"];
                               text_row ["k__Bacteria|p__Firmicutes"; "2|1239"; "100.0";
                                         "0.5"; "800"] ] |})
    as (dfm & Hload & _).
  - reflexivity.
  - vm_compute. reflexivity.
  - exists dfm. split; [exact Hload|].
    assert (E : Ok dfm = load_metaphlan_table decimal_literal (mpa_table scenario_metaphlan))
      by (symmetry; exact Hload).
    injection E as ->. reflexivity.
Defined.


Lemma malformed_report_is_fatal_witness :
  malformed_kraken (paired_report malformed_classification)
  /\ exists ex,
      summarize_classification decimal_literal malformed_classification = Raise ex
      /\ exit_status (main decimal_literal no_filter_stats malformed_classification "s") = 1.
Proof.
  assert (Hbad : malformed_kraken (paired_report malformed_classification)).
  { exists {| shape1 := 3; raw_rows := [ text_row ["90.00"; "90"; "90"] ] |}.
    split; [reflexivity | simpl; lia]. }
  split; [exact Hbad|].
  destruct (malformed_report_is_fatal decimal_literal no_filter_stats
              malformed_classification "s" (or_introl Hbad))
    as (ex & Hex & Hmain).
  exists ex. split; [exact Hex|]. rewrite Hmain. reflexivity.
Defined.

Lemma parse_flagstat_primary_first_count_witness :
  fst (parse_flagstat_primary (Text scenario_flagstat)) = Some 100 /\ 0 <= 100.
Proof.
  destruct (parse_flagstat_primary_first_count (Text scenario_flagstat))
    as (_ & Hnonneg & _).
  split; [reflexivity|]. apply Hnonneg. reflexivity.
Defined.

Lemma filtering_summary_key_order_witness :
  filter_counts_fit no_filter_stats "s" = true
  /\ Forall (fun kv => snd kv = 0) (fst (filtering_summary no_filter_stats "s")).
Proof.
  split; [vm_compute; reflexivity|].
  destruct (filtering_summary_key_order no_filter_stats "s") as (_ & _ & Hzero).
  - vm_compute. reflexivity.
  - apply Hzero; intros n; reflexivity.
Defined.

(** ** Where the specification and the code part *)

(** C1: a row of 7 reads whose name cell is missing is read from the
    report, yet the merged frame has no row of its tax_id: the frame is the
    root row alone, and its reads_clade add up to 20, not to twice the 17
    reads of the report. *)
Lemma merge_kraken_reports_drops_nameless_rows :
  input_rows decimal_literal (Some nameless_report) None = Ok nameless_rows
  /\ exact_counts nameless_rows = true
  /\ (exists r, In r nameless_rows
                /\ Report.tax_id r = Z2Qc 9606 /\ Report.reads_clade r = Z2Qc 7)
  /\ exists df,
      merge_kraken_reports decimal_literal (Some nameless_report) None = Ok df
      /\ map merged_key df = [("root", Z2Qc 1, "R")]
      /\ sumQc (map Merged.reads_clade df) = Z2Qc 20
      /\ (Z2Qc 2 * sumQc (map Report.reads_clade nameless_rows))%Qc = Z2Qc 34
      /\ sumQc (map Merged.reads_clade df)
         <> (Z2Qc 2 * sumQc (map Report.reads_clade nameless_rows))%Qc.
Proof.
  split; [reflexivity|]. split; [vm_compute; reflexivity|].
  split.
  { eexists. split; [right; left; reflexivity|].
    split; apply Qc_is_canon; vm_compute; reflexivity. }
  eexists. split; [reflexivity|].
  split; [vm_compute; reflexivity|].
  split; [apply Qc_is_canon; vm_compute; reflexivity|].
  split; [apply Qc_is_canon; vm_compute; reflexivity|].
  intros H. apply (f_equal (fun q : Qc => Qnum q)) in H. vm_compute in H. discriminate H.
Qed.

(** C4: the flagstat of the aligned paired reads is read (7 primary reads),
    yet the summary row has no key for it: not all four paired/unpaired
    aligned/unaligned counters are in the row, which has 28 keys. *)
Lemma filtering_summary_drops_aligned_counters :
  filter_counts_fit aligned_paired_only "s" = true
  /\ lookup "T2T_ALIGNED_PAIRED_PRIMARY" (fst (collect_primary_reads aligned_paired_only "s"))
     = Some 7
  /\ length (keys (fst (filtering_summary aligned_paired_only "s"))) = 28%nat
  /\ ~ (forall k, In k t2t_variant_counters ->
                  In k (keys (fst (filtering_summary aligned_paired_only "s")))).
Proof.
  split; [vm_compute; reflexivity|].
  split; [reflexivity|]. split; [reflexivity|].
  intros Hall.
  specialize (Hall "T2T_ALIGNED_PAIRED_PRIMARY" (or_introl eq_refl)).
  assert (Hfit : filter_counts_fit aligned_paired_only "s" = true)
    by (vm_compute; reflexivity).
  destruct (filtering_summary_key_order aligned_paired_only "s" Hfit) as [Hkeys _].
  cbv zeta in Hkeys. rewrite Hkeys in Hall.
  repeat (destruct Hall as [Hall|Hall]; [discriminate Hall|]).
  exact Hall.
Qed.

(** C5: with a three-column paired Kraken2 report next to a well-formed
    MetaPhlAn report, the classification summary raises ValueError; no
    MetaPhlAn counter is returned, no summary row is written and the exit
    status is 1. *)
Lemma malformed_kraken_report_aborts :
  summarize_classification decimal_literal malformed_classification = Raise ValueError
  /\ exit_status (main decimal_literal (only_flagstat scenario_flagstat)
                       malformed_classification "s") = 1
  /\ summary_tsv (main decimal_literal (only_flagstat scenario_flagstat)
                       malformed_classification "s") = None
  /\ stderr (main decimal_literal (only_flagstat scenario_flagstat)
                  malformed_classification "s") = [Fatal ValueError].
Proof.
  repeat split; reflexivity.
Qed.

(** C6: the first line marked "primary" has no integer in its first field,
    so the extractor as specified returns absent; the code goes on to the
    second line and returns 5. *)
Lemma parse_flagstat_primary_skips_invalid_count :
  fst (parse_flagstat_primary two_primary_lines) = Some 5
  /\ flagstat_primary_as_specified two_primary_lines = None
  /\ fst (parse_flagstat_primary two_primary_lines)
     <> flagstat_primary_as_specified two_primary_lines.
Proof.
  split; [reflexivity|]. split; [reflexivity|]. discriminate.
Qed.


(** ** End-to-end scenarios *)

(** Three reads of a taxon under a root of 2,000,000 reads, doubled: the
    decimal value 0.00015 of the percentage is a tie, the float64 quotient
    lies below it, and pct_reads is the float64 of 0.0001. *)
Example pct_of_below_decimal_tie :
  pct_of (Z2Qc 4000000) (Z2Qc 6) = f64_div (f64_of_Z 1) (f64_of_Z 10000)
  /\ (f64_value (pct_of (Z2Qc 4000000) (Z2Qc 6)) < Q2Qc (15 # 100000))%Qc
  /\ pct_of (Z2Qc 0) (Z2Qc 6) = S754_zero false.
Proof.
  split; [vm_compute; reflexivity|]. split; vm_compute; reflexivity.
Qed.

(** An infinite clade_taxid in a five-column table: the cast to int raises
    and the table is not loaded. *)
Example infinite_taxid_raises :
  finite_taxids decimal_literal infinite_taxid_table = false
  /\ load_metaphlan_table decimal_literal (Ok infinite_taxid_table) = Raise ValueError.
Proof.
  split; vm_compute; reflexivity.
Qed.

(** A flagstat of 100 primary reads, no filter metrics, and one paired
    Kraken2 report with 10 unclassified reads and 90 reads under the root:
    PRIMARY_READS is 100, the Kraken2 totals are the doubled counts, and the
    root row is written with 1,800,000 reads per million. *)
Example scenario_paired_report_only :
  let o := main decimal_literal (only_flagstat scenario_flagstat)
                scenario_classification "s" in
  exit_status o = 0
  /\ option_map (fun row => (lookup "PRIMARY_READS" row,
                             lookup "TOTAL_READS_TESTED" row,
                             lookup "UNCLASSIFIED_TOTAL_K2" row,
                             lookup "CLASSIFIED_TOTAL_K2" row))
                (summary_tsv o)
     = Some (Some 100, Some 200, Some 20, Some 180)
  /\ option_map (map (fun r => (KrakenOut.name r,
                                this (KrakenOut.reads_clade_per_million r))))
                (kraken_txt (tables o))
     = Some [ ("root", inject_Z 1800000); ("unclassified", inject_Z 200000) ].
Proof.
  cbv zeta. repeat split; vm_compute; reflexivity.
Qed.

(** No classifier file at all: the summary row holds the filtering keys
    only, no normalized table is written, a warning is logged and the exit
    status is 0. *)
Example scenario_no_classifier_output :
  let o := main decimal_literal (only_flagstat scenario_flagstat)
                no_classifier_output "s" in
  exit_status o = 0
  /\ option_map keys (summary_tsv o) = Some FILTER_SUMMARY_ORDER
  /\ tables o = no_tables
  /\ stderr o = [WarnNoClassifierOutputs].
Proof.
  cbv zeta. repeat split; vm_compute; reflexivity.
Qed.


(** * Further properties of the summarize step *)

(** ** Dictionaries *)

Lemma lookup_set (s : series) (k k' : string) (v : Z) :
  lookup k (set s k' v) = if String.eqb k k' then Some v else lookup k s.
Proof.
  induction s as [|[k0 v0] s IH]; cbn [set lookup].
  - destruct (String.eqb k k'); reflexivity.
  - destruct (String.eqb k' k0) eqn:E0; cbn [lookup].
    + apply String.eqb_eq in E0. subst k0.
      destruct (String.eqb k k'); reflexivity.
    + destruct (String.eqb k k0) eqn:E1.
      * apply String.eqb_eq in E1. subst k0.
        rewrite String.eqb_sym in E0. rewrite E0. reflexivity.
      * exact IH.
Qed.

Lemma lookup_app (a b : series) (k : string) :
  lookup k (a ++ b)%list
  = match lookup k a with
    | Some v => Some v
    | None => lookup k b
    end.
Proof.
  induction a as [|[k0 v0] a IH]; cbn [app lookup]; [reflexivity|].
  destruct (String.eqb k k0); [reflexivity | exact IH].
Qed.

Lemma lookup_not_in_keys (s : series) (k : string) :
  ~ In k (keys s) -> lookup k s = None.
Proof.
  induction s as [|[k0 v0] s IH]; cbn [keys map fst lookup In]; [reflexivity|].
  intros Hnot. destruct (String.eqb k k0) eqn:E.
  - apply String.eqb_eq in E. subst. exfalso. apply Hnot. left. reflexivity.
  - apply IH. intros Hin. apply Hnot. right. exact Hin.
Qed.

(** ** Flagstat collection *)

Lemma mapped_file_none (k : string) (mapping : list (string * string)) :
  ~ In k (map fst mapping) -> mapped_file k mapping = None.
Proof.
  induction mapping as [|[key fname] mapping IH]; cbn [mapped_file map fst In];
    [reflexivity|].
  intros Hnot. destruct (String.eqb k key) eqn:E.
  - apply String.eqb_eq in E. subst. exfalso. apply Hnot. left. reflexivity.
  - apply IH. intros Hin. apply Hnot. right. exact Hin.
Qed.

Lemma lookup_collect_flagstats (dir : filter_stats_dir) (mapping : list (string * string)) :
  NoDup (map fst mapping) ->
  forall rs log k,
    lookup k (fst (collect_flagstats dir mapping rs log))
    = match mapped_file k mapping with
      | Some fname =>
          match extracted_primary dir fname with
          | Some n => Some n
          | None => lookup k rs
          end
      | None => lookup k rs
      end.
Proof.
  induction mapping as [|[key fname] mapping IH]; intros Hnodup rs log k;
    [reflexivity|].
  cbn [map fst] in Hnodup. inversion Hnodup as [|? ? Hnotin Hnodup']; subst.
  cbn [collect_flagstats mapped_file].
  assert (Hx : extracted_primary dir fname
               = match flagstat_file dir fname with
                 | Some f => fst (parse_flagstat_primary f)
                 | None => None
                 end) by reflexivity.
  destruct (flagstat_file dir fname) as [f|].
  - destruct (parse_flagstat_primary f) as [v msgs]. cbn [fst] in Hx.
    destruct v as [n|]; rewrite (IH Hnodup').
    + destruct (String.eqb k key) eqn:E.
      * apply String.eqb_eq in E. subst k.
        rewrite (mapped_file_none key mapping Hnotin), lookup_set, String.eqb_refl, Hx.
        reflexivity.
      * rewrite lookup_set, E. reflexivity.
    + destruct (String.eqb k key) eqn:E; [|reflexivity].
      apply String.eqb_eq in E. subst k.
      rewrite (mapped_file_none key mapping Hnotin), Hx. reflexivity.
  - rewrite (IH Hnodup').
    destruct (String.eqb k key) eqn:E; [|reflexivity].
    apply String.eqb_eq in E. subst k.
    rewrite (mapped_file_none key mapping Hnotin), Hx. reflexivity.
Qed.

Lemma flagstat_mapping_keys (sample : string) :
  map fst (flagstat_mapping sample)
  = [ "PRIMARY_READS"; "T2T_ALIGNED_PAIRED_PRIMARY"; "T2T_UNALIGNED_PAIRED_PRIMARY";
      "T2T_ALIGNED_UNPAIRED_PRIMARY"; "T2T_UNALIGNED_UNPAIRED_PRIMARY" ].
Proof. reflexivity. Qed.

Lemma flagstat_mapping_NoDup (sample : string) : NoDup (map fst (flagstat_mapping sample)).
Proof.
  rewrite flagstat_mapping_keys.
  repeat (constructor; [cbn [In]; intros H; repeat (destruct H as [H|H]; [discriminate H|]); exact H|]).
  constructor.
Qed.

Lemma extracted_primary_nonneg (dir : filter_stats_dir) (fname : string) (n : Z) :
  extracted_primary dir fname = Some n -> 0 <= n.
Proof.
  unfold extracted_primary. destruct (flagstat_file dir fname) as [f|]; [|discriminate].
  intros H. destruct f as [|content]; [discriminate|].
  cbn [parse_flagstat_primary fst] in H. apply flagstat_scan_some in H.
  destruct H as (_ & line & _ & _ & Hv & _). exact (primary_value_nonneg line n Hv).
Qed.

(** ** PathSeq metrics collection *)

Lemma collect_pathseq_metrics_eq (dir : filter_stats_dir) (sample : string) :
  let unaligned := metrics_or_empty dir (sample ++ ".unaligned.filter_metrics.txt") in
  let excluded := metrics_or_empty dir (sample ++ ".excluded.filter_metrics.txt") in
  collect_pathseq_metrics dir sample
  = (map (fun col => (("UNALIGNED_" ++ col)%string, get unaligned col 0)) PATHSEQ_COLS
     ++ map (fun col => (("EXCLUDED_" ++ col)%string, get excluded col 0)) PATHSEQ_COLS
     ++ map (fun col => (("QCFILTER_" ++ col)%string,
                         get unaligned col 0 + get excluded col 0))
            PATHSEQ_COLS)%list.
Proof.
  cbv zeta. unfold collect_pathseq_metrics.
  generalize (metrics_or_empty dir (sample ++ ".unaligned.filter_metrics.txt")).
  generalize (metrics_or_empty dir (sample ++ ".excluded.filter_metrics.txt")).
  intros excluded unaligned. reflexivity.
Qed.

(** ** The filtering summary row *)

Lemma filtering_summary_eq (dir : filter_stats_dir) (sample : string) :
  fst (filtering_summary dir sample)
  = reindex_fill0 FILTER_SUMMARY_ORDER
      (fst (collect_primary_reads dir sample) ++ collect_pathseq_metrics dir sample)%list.
Proof.
  unfold filtering_summary.
  destruct (collect_primary_reads dir sample) as [rs log]. reflexivity.
Qed.

Lemma collect_primary_reads_eq (dir : filter_stats_dir) (sample : string) :
  let rs := fst (collect_flagstats dir (flagstat_mapping sample) [] []) in
  fst (collect_primary_reads dir sample)
  = set rs "T2T_UNALIGNED_TOTAL_READS"
        (get rs "T2T_UNALIGNED_PAIRED_PRIMARY" 0 + get rs "T2T_UNALIGNED_UNPAIRED_PRIMARY" 0).
Proof.
  cbv zeta. unfold collect_primary_reads.
  destruct (collect_flagstats dir (flagstat_mapping sample) [] []) as [rs log]. reflexivity.
Qed.


Lemma filtering_summary_primary_reads_row (dir : filter_stats_dir) (sample : string) :
  lookup "PRIMARY_READS" (fst (filtering_summary dir sample))
  = Some (match extracted_primary dir (sample ++ ".flagstat.tsv") with
          | Some n => n
          | None => 0
          end).
Proof.
  rewrite filtering_summary_eq.
  rewrite lookup_reindex_fill0 by (cbv; auto).
  f_equal. unfold get at 1. rewrite lookup_app, collect_primary_reads_eq. cbv zeta.
  rewrite lookup_set. cbn [String.eqb Ascii.eqb Bool.eqb].
  rewrite (lookup_collect_flagstats dir _ (flagstat_mapping_NoDup sample)).
  cbn [flagstat_mapping mapped_file String.eqb Ascii.eqb Bool.eqb lookup].
  destruct (extracted_primary dir (sample ++ ".flagstat.tsv")); [reflexivity|].
  rewrite collect_pathseq_metrics_eq. cbv zeta.
  generalize (metrics_or_empty dir (sample ++ ".unaligned.filter_metrics.txt")).
  generalize (metrics_or_empty dir (sample ++ ".excluded.filter_metrics.txt")).
  intros excluded unaligned. reflexivity.
Qed.

(** X1. Whenever the counts of the sample fit 64 bits, PRIMARY_READS of the
    filtering summary, the denominator of the per-million columns, is the
    primary count of <sample>.flagstat.tsv, and 0
    when that file is missing, unreadable or without a "primary" count; it is
    never negative, and no filter-metrics table contributes to it. *)
Theorem filtering_summary_primary_reads (dir : filter_stats_dir) (sample : string) :
  filter_counts_fit dir sample = true ->
  let primary_reads := get (fst (filtering_summary dir sample)) "PRIMARY_READS" 0 in
  lookup "PRIMARY_READS" (fst (filtering_summary dir sample)) = Some primary_reads
  /\ primary_reads
     = match extracted_primary dir (sample ++ ".flagstat.tsv") with
       | Some n => n
       | None => 0
       end
  /\ 0 <= primary_reads.
Proof.
  intros _.
  cbv zeta. pose proof (filtering_summary_primary_reads_row dir sample) as Hrow.
  unfold get. rewrite Hrow. split; [reflexivity|]. split; [reflexivity|].
  destruct (extracted_primary dir (sample ++ ".flagstat.tsv")) as [n|] eqn:E; [|lia].
  exact (extracted_primary_nonneg _ _ _ E).
Qed.





(** ** The invocation as a whole *)

Section MainProperties.

Variable to_numeric : string -> option Qc.

Lemma merge_kraken_reports_not_found (paired unpaired : option report_file) :
  merge_kraken_reports to_numeric paired unpaired = Raise FileNotFoundError
  <-> paired = None /\ unpaired = None.
Proof.
  split.
  - unfold merge_kraken_reports, append_doubled.
    destruct paired as [fp|], unpaired as [fu|]; [| | |auto].
    + destruct (load_kraken_report to_numeric fp) as [p|e] eqn:Ep; cbn [bind].
      * destruct (load_kraken_report to_numeric fu) as [u|e] eqn:Eu; cbn [bind];
          [discriminate|].
        intros H. injection H as ->.
        destruct (load_kraken_report_raises to_numeric fu _ Eu); discriminate.
      * intros H. injection H as ->.
        destruct (load_kraken_report_raises to_numeric fp _ Ep); discriminate.
    + destruct (load_kraken_report to_numeric fp) as [p|e] eqn:Ep; cbn [bind];
        [discriminate|].
      intros H. injection H as ->.
      destruct (load_kraken_report_raises to_numeric fp _ Ep); discriminate.
    + cbn [bind].
      destruct (load_kraken_report to_numeric fu) as [u|e] eqn:Eu; cbn [bind];
        [discriminate|].
      intros H. injection H as ->.
      destruct (load_kraken_report_raises to_numeric fu _ Eu); discriminate.
  - intros [-> ->]. reflexivity.
Qed.

Lemma kraken_totals_ok (cdir : classification_stats_dir) (ks : series) :
  kraken_totals to_numeric cdir = Ok ks ->
  (paired_report cdir = None /\ unpaired_report cdir = None /\ ks = [])
  \/ (exists df,
        merge_kraken_reports to_numeric (paired_report cdir) (unpaired_report cdir) = Ok df
        /\ keys ks = KRAKEN_KEYS).
Proof.
  unfold kraken_totals.
  destruct (merge_kraken_reports to_numeric _ _) as [df|e] eqn:E.
  - intros H. injection H as <-. right. exists df. split; reflexivity.
  - destruct e; try discriminate. intros H. injection H as <-.
    apply merge_kraken_reports_not_found in E. destruct E. left. auto.
Qed.

Lemma metaphlan_totals_ok (f : metaphlan_file) (d : series) :
  metaphlan_totals to_numeric f = Ok d ->
  keys d = METAPHLAN_KEYS
  /\ exists dfm, load_metaphlan_table to_numeric (mpa_table f) = Ok dfm.
Proof.
  unfold metaphlan_totals.
  destruct (mpa_text f) as [|content]; cbn [bind]; [discriminate|].
  destruct (scan_header _ 0 0) as [[total classified]|e]; cbn [bind]; [|discriminate].
  destruct (load_metaphlan_table to_numeric (mpa_table f)) as [dfm|e]; cbn [bind];
    [|discriminate].
  intros H. injection H as <-. split; [reflexivity|]. exists dfm. reflexivity.
Qed.

Lemma keys_update_disjoint (ks : series) (d : series) :
  keys ks = [] \/ keys ks = KRAKEN_KEYS ->
  keys d = METAPHLAN_KEYS ->
  keys (update ks d) = (keys ks ++ METAPHLAN_KEYS)%list.
Proof.
  intros Hks Hd.
  destruct d as [|[k1 v1] [|[k2 v2] [|[k3 v3] [|[k4 v4] [|[k5 v5] [|? ?]]]]]];
    try discriminate Hd.
  injection Hd as -> -> -> -> ->.
  destruct Hks as [Hks|Hks].
  - destruct ks; [reflexivity | discriminate Hks].
  - destruct ks as [|[a1 w1] [|[a2 w2] [|[a3 w3] [|[a4 w4] [|[a5 w5] [|? ?]]]]]];
      try discriminate Hks.
    injection Hks as -> -> -> -> ->. reflexivity.
Qed.

(** The shape of a classification summary that was returned. *)
Lemma summarize_classification_ok
    (cdir : classification_stats_dir) (summary : series) (log : list message) :
  summarize_classification to_numeric cdir = Ok (summary, log) ->
  let kraken_keys :=
    match paired_report cdir, unpaired_report cdir with
    | None, None => []
    | _, _ => KRAKEN_KEYS
    end in
  let metaphlan_keys :=
    match metaphlan_report cdir with
    | None => []
    | Some _ => METAPHLAN_KEYS
    end in
  keys summary = (kraken_keys ++ metaphlan_keys)%list
  /\ (match paired_report cdir, unpaired_report cdir with
      | None, None => True
      | _, _ => exists df,
          merge_kraken_reports to_numeric (paired_report cdir) (unpaired_report cdir) = Ok df
      end)
  /\ (match metaphlan_report cdir with
      | None => True
      | Some f => exists dfm, load_metaphlan_table to_numeric (mpa_table f) = Ok dfm
      end)
  /\ log = match summary with
           | [] => [WarnNoClassifierOutputs]
           | _ => []
           end.
Proof.
  unfold summarize_classification.
  destruct (kraken_totals to_numeric cdir) as [ks|e] eqn:Ek; cbn [bind]; [|discriminate].
  apply kraken_totals_ok in Ek.
  assert (Hks : keys ks = match paired_report cdir, unpaired_report cdir with
                          | None, None => []
                          | _, _ => KRAKEN_KEYS
                          end
                /\ match paired_report cdir, unpaired_report cdir with
                   | None, None => True
                   | _, _ => exists df,
                       merge_kraken_reports to_numeric (paired_report cdir)
                                            (unpaired_report cdir) = Ok df
                   end).
  { destruct Ek as [(-> & -> & ->)|(df & Hdf & Hkeys)]; [split; [reflexivity|exact I]|].
    destruct (paired_report cdir), (unpaired_report cdir);
      try (split; [exact Hkeys | exists df; exact Hdf]).
    discriminate Hdf. }
  destruct Hks as [Hkeys Hmerge].
  destruct (metaphlan_report cdir) as [f|].
  - destruct (metaphlan_totals to_numeric f) as [d|e] eqn:Ed; cbn [bind]; [|discriminate].
    apply metaphlan_totals_ok in Ed. destruct Ed as [Hd Hload].
    intros H. injection H as <- <-. cbv zeta.
    rewrite (keys_update_disjoint ks d); [|destruct (paired_report cdir), (unpaired_report cdir); auto|exact Hd].
    rewrite Hkeys. auto.
  - cbn [bind]. intros H. injection H as <- <-. cbv zeta.
    rewrite Hkeys, app_nil_r. auto.
Qed.

End MainProperties.

Lemma NoDup_strings (l : list string) : nodup string_dec l = l -> NoDup l.
Proof. intros <-. apply NoDup_nodup. Qed.

Section InvocationProperties.

Variable to_numeric : string -> option Qc.

Lemma main_ok (fdir : filter_stats_dir) (cdir : classification_stats_dir) (sample : string)
    (class_row : series) (log_c : list message) :
  summarize_classification to_numeric cdir = Ok (class_row, log_c) ->
  main to_numeric fdir cdir sample
  = let filt := filtering_summary fdir sample in
    let written :=
      write_normalized_tables to_numeric cdir (get (fst filt) "PRIMARY_READS" 0) in
    {| exit_status := 0;
       summary_tsv := Some (fst filt ++ class_row)%list;
       tables := fst written;
       stderr := (snd filt ++ log_c ++ snd written)%list |}.
Proof.
  intros Hsum. unfold main. rewrite Hsum.
  destruct (filtering_summary fdir sample) as [filt_row log_f]. cbn [fst snd].
  destruct (write_normalized_tables to_numeric cdir _) as [written log_w]. reflexivity.
Qed.

Lemma main_raise (fdir : filter_stats_dir) (cdir : classification_stats_dir)
    (sample : string) (ex : exn) :
  summarize_classification to_numeric cdir = Raise ex ->
  main to_numeric fdir cdir sample
  = {| exit_status := 1;
       summary_tsv := None;
       tables := no_tables;
       stderr := (snd (filtering_summary fdir sample) ++ [Fatal ex])%list |}.
Proof.
  intros Hsum. unfold main. rewrite Hsum.
  destruct (filtering_summary fdir sample) as [filt_row log_f]. reflexivity.
Qed.


(** X5. The summary row that is written has the 28 filtering keys followed
    by the five Kraken2 keys when a Kraken2 report exists and the five
    MetaPhlAn keys when the MetaPhlAn report exists; no key occurs twice. *)
Theorem main_summary_keys
    (fdir : filter_stats_dir) (cdir : classification_stats_dir) (sample : string)
    (row : series) :
  summary_tsv (main to_numeric fdir cdir sample) = Some row ->
  keys row
  = (FILTER_SUMMARY_ORDER
     ++ match paired_report cdir, unpaired_report cdir with
        | None, None => []
        | _, _ => KRAKEN_KEYS
        end
     ++ match metaphlan_report cdir with
        | None => []
        | Some _ => METAPHLAN_KEYS
        end)%list
  /\ NoDup (keys row).
Proof.
  destruct (summarize_classification to_numeric cdir) as [[class_row log_c]|ex] eqn:Hsum.
  - rewrite (main_ok _ _ _ _ _ Hsum). cbn [summary_tsv].
    intros H. injection H as <-.
    destruct (summarize_classification_ok to_numeric cdir _ _ Hsum) as [Hkeys _].
    cbv zeta in Hkeys.
    assert (Hrow : keys (fst (filtering_summary fdir sample) ++ class_row)%list
                   = (FILTER_SUMMARY_ORDER ++ keys class_row)%list).
    { unfold keys at 1. rewrite map_app. fold (keys (fst (filtering_summary fdir sample))).
      rewrite filtering_summary_eq, keys_reindex_fill0. reflexivity. }
    rewrite Hrow, Hkeys. split; [reflexivity|].
    destruct (paired_report cdir), (unpaired_report cdir), (metaphlan_report cdir);
      apply NoDup_strings; vm_compute; reflexivity.
  - rewrite (main_raise _ _ _ _ Hsum). discriminate.
Qed.

Lemma write_kraken_table_ok (cdir : classification_stats_dir) (D : Z) :
  match paired_report cdir, unpaired_report cdir with
  | None, None => True
  | _, _ => exists df,
      merge_kraken_reports to_numeric (paired_report cdir) (unpaired_report cdir) = Ok df
  end ->
  (fst (write_kraken_table to_numeric cdir D) <> None
   <-> paired_report cdir <> None \/ unpaired_report cdir <> None)
  /\ snd (write_kraken_table to_numeric cdir D) = [].
Proof.
  unfold write_kraken_table.
  destruct (paired_report cdir) as [fp|], (unpaired_report cdir) as [fu|]; intros Hmerge.
  - destruct Hmerge as [df ->]. cbn. split; [|reflexivity].
    split; [intros _; left; discriminate | intros _; discriminate].
  - destruct Hmerge as [df ->]. cbn. split; [|reflexivity].
    split; [intros _; left; discriminate | intros _; discriminate].
  - destruct Hmerge as [df ->]. cbn. split; [|reflexivity].
    split; [intros _; right; discriminate | intros _; discriminate].
  - cbn. split; [|reflexivity].
    split; [intros H; exfalso; apply H; reflexivity|].
    intros [H|H]; exfalso; apply H; reflexivity.
Qed.

Lemma write_metaphlan_table_ok (cdir : classification_stats_dir) (D : Z) :
  match metaphlan_report cdir with
  | None => True
  | Some f => exists dfm, load_metaphlan_table to_numeric (mpa_table f) = Ok dfm
  end ->
  (fst (write_metaphlan_table to_numeric cdir D) <> None <-> metaphlan_report cdir <> None)
  /\ snd (write_metaphlan_table to_numeric cdir D) = [].
Proof.
  unfold write_metaphlan_table.
  destruct (metaphlan_report cdir) as [f|]; intros Hload.
  - destruct Hload as [dfm ->]. cbn. split; [|reflexivity].
    split; intros _; discriminate.
  - cbn. split; [|reflexivity].
    split; intros H; exfalso; apply H; reflexivity.
Qed.

Lemma filtering_log_no_failure (fdir : filter_stats_dir) (sample : string) :
  Forall (fun msg => normalization_failure msg = false)
         (snd (filtering_summary fdir sample)).
Proof.
  assert (Hgen : forall mapping rs log,
             Forall (fun msg => normalization_failure msg = false) log ->
             Forall (fun msg => normalization_failure msg = false)
                    (snd (collect_flagstats fdir mapping rs log))).
  { induction mapping as [|[key fname] mapping IH]; intros rs log Hl; [exact Hl|].
    cbn [collect_flagstats]. destruct (flagstat_file fdir fname) as [f|]; [|auto].
    destruct f as [|content]; cbn [parse_flagstat_primary].
    - apply IH. apply Forall_app. split; [exact Hl|]. repeat constructor.
    - destruct (flagstat_scan _); apply IH; rewrite app_nil_r; exact Hl. }
  unfold filtering_summary, collect_primary_reads.
  specialize (Hgen (flagstat_mapping sample) [] [] (Forall_nil _)).
  destruct (collect_flagstats fdir (flagstat_mapping sample) [] []) as [rs log].
  exact Hgen.
Qed.

(** X6. When the invocation succeeds with a positive PRIMARY_READS, the
    normalized Kraken2 table is written exactly when a Kraken2 report exists
    and the normalized MetaPhlAn table exactly when the MetaPhlAn report
    exists, so the tables match the classifier keys of the summary row; the
    handlers for a failed normalization never fire. *)
Theorem main_tables_match_reports
    (fdir : filter_stats_dir) (cdir : classification_stats_dir) (sample : string) :
  let o := main to_numeric fdir cdir sample in
  exit_status o = 0 ->
  0 < get (fst (filtering_summary fdir sample)) "PRIMARY_READS" 0 ->
  (kraken_txt (tables o) <> None
   <-> paired_report cdir <> None \/ unpaired_report cdir <> None)
  /\ (metaphlan_txt (tables o) <> None <-> metaphlan_report cdir <> None)
  /\ Forall (fun msg => normalization_failure msg = false) (stderr o).
Proof.
  cbv zeta.
  destruct (summarize_classification to_numeric cdir) as [[class_row log_c]|ex] eqn:Hsum.
  2:{ rewrite (main_raise _ _ _ _ Hsum). cbn. discriminate. }
  rewrite (main_ok _ _ _ _ _ Hsum). cbv zeta. cbn [exit_status tables stderr].
  intros _ Hpos.
  destruct (summarize_classification_ok to_numeric cdir _ _ Hsum)
    as (_ & Hmerge & Hload & Hlog). cbv zeta in *.
  assert (Hclog : Forall (fun msg => normalization_failure msg = false) log_c).
  { rewrite Hlog. destruct class_row; repeat constructor. }
  unfold write_normalized_tables.
  assert (E : (get (fst (filtering_summary fdir sample)) "PRIMARY_READS" 0 <=? 0) = false)
    by lia.
  rewrite E.
  destruct (write_kraken_table_ok cdir
              (get (fst (filtering_summary fdir sample)) "PRIMARY_READS" 0) Hmerge)
    as [Hk Hklog].
  destruct (write_metaphlan_table_ok cdir
              (get (fst (filtering_summary fdir sample)) "PRIMARY_READS" 0) Hload)
    as [Hm Hmlog].
  destruct (write_kraken_table to_numeric cdir _) as [k log_k].
  destruct (write_metaphlan_table to_numeric cdir _) as [t log_m].
  cbn [fst snd kraken_txt metaphlan_txt] in *. subst log_k log_m.
  split; [exact Hk|]. split; [exact Hm|].
  rewrite !app_nil_r. apply Forall_app. split; [apply filtering_log_no_failure | exact Hclog].
Qed.

End InvocationProperties.


(** ** Order of the groups *)

Lemma ascii_compare_refl (a : ascii) : Ascii.compare a a = Eq.
Proof. unfold Ascii.compare. apply N.compare_refl. Qed.

Lemma ascii_compare_lt_trans (a b c : ascii) :
  Ascii.compare a b = Lt -> Ascii.compare b c = Lt -> Ascii.compare a c = Lt.
Proof. unfold Ascii.compare. rewrite !N.compare_lt_iff. lia. Qed.

Lemma string_compare_refl (s : string) : String.compare s s = Eq.
Proof.
  induction s as [|a s IH]; [reflexivity|].
  cbn [String.compare]. rewrite ascii_compare_refl. exact IH.
Qed.

Lemma string_compare_lt_trans (s1 : string) :
  forall s2 s3,
    String.compare s1 s2 = Lt -> String.compare s2 s3 = Lt -> String.compare s1 s3 = Lt.
Proof.
  induction s1 as [|a s1 IH]; intros [|b s2] [|c s3]; cbn [String.compare];
    try discriminate; auto.
  destruct (Ascii.compare a b) eqn:Eab; try discriminate;
    destruct (Ascii.compare b c) eqn:Ebc; try discriminate; intros H1 H2.
  - apply Ascii.compare_eq_iff in Eab, Ebc. subst. rewrite ascii_compare_refl.
    exact (IH _ _ H1 H2).
  - apply Ascii.compare_eq_iff in Eab. subst. rewrite Ebc. reflexivity.
  - apply Ascii.compare_eq_iff in Ebc. subst. rewrite Eab. reflexivity.
  - rewrite (ascii_compare_lt_trans _ _ _ Eab Ebc). reflexivity.
Qed.

Lemma string_leb_trans (s1 s2 s3 : string) :
  String.leb s1 s2 = true -> String.leb s2 s3 = true -> String.leb s1 s3 = true.
Proof.
  unfold String.leb.
  destruct (String.compare s1 s2) eqn:E12; try discriminate;
    destruct (String.compare s2 s3) eqn:E23; try discriminate; intros _ _.
  - apply String.compare_eq_iff in E12, E23. subst. rewrite string_compare_refl. reflexivity.
  - apply String.compare_eq_iff in E12. subst. rewrite E23. reflexivity.
  - apply String.compare_eq_iff in E23. subst. rewrite E12. reflexivity.
  - rewrite (string_compare_lt_trans _ _ _ E12 E23). reflexivity.
Qed.

Lemma Qccompare_refl (x : Qc) : Qccompare x x = Eq.
Proof. apply Qceq_alt. reflexivity. Qed.

Lemma Qccompare_lt_trans (x y z : Qc) :
  Qccompare x y = Lt -> Qccompare y z = Lt -> Qccompare x z = Lt.
Proof. rewrite <- !Qclt_alt. apply Qclt_trans. Qed.

Lemma Qccompare_antisym (x y : Qc) : Qccompare y x = CompOpp (Qccompare x y).
Proof. unfold Qccompare. symmetry. apply Qcompare_antisym. Qed.

Lemma key_le_total (a b : key) : key_le a b \/ key_le b a.
Proof.
  destruct a as [[n1 t1] r1], b as [[n2 t2] r2]. unfold key_le, key_leb.
  rewrite (String.compare_antisym n2 n1), (Qccompare_antisym t1 t2).
  destruct (String.compare n1 n2); cbn [CompOpp]; auto.
  destruct (Qccompare t1 t2); cbn [CompOpp]; auto.
  apply String.leb_total.
Qed.

Lemma key_le_antisym (a b : key) : key_le a b -> key_le b a -> a = b.
Proof.
  destruct a as [[n1 t1] r1], b as [[n2 t2] r2]. unfold key_le, key_leb.
  rewrite (String.compare_antisym n2 n1), (Qccompare_antisym t1 t2).
  destruct (String.compare n1 n2) eqn:En; cbn [CompOpp]; try discriminate.
  destruct (Qccompare t1 t2) eqn:Et; cbn [CompOpp]; try discriminate.
  intros H1 H2. apply String.compare_eq_iff in En. apply Qceq_alt in Et.
  rewrite (String.leb_antisym _ _ H1 H2). subst. reflexivity.
Qed.

Lemma key_le_trans (a b c : key) : key_le a b -> key_le b c -> key_le a c.
Proof.
  destruct a as [[n1 t1] r1], b as [[n2 t2] r2], c as [[n3 t3] r3].
  unfold key_le, key_leb.
  destruct (String.compare n1 n2) eqn:E12; try discriminate;
    destruct (String.compare n2 n3) eqn:E23; try discriminate.
  - apply String.compare_eq_iff in E12, E23. subst. rewrite string_compare_refl.
    destruct (Qccompare t1 t2) eqn:F12; try discriminate;
      destruct (Qccompare t2 t3) eqn:F23; try discriminate.
    + apply Qceq_alt in F12, F23. subst. rewrite Qccompare_refl. apply string_leb_trans.
    + apply Qceq_alt in F12. subst. rewrite F23. auto.
    + apply Qceq_alt in F23. subst. rewrite F12. auto.
    + rewrite (Qccompare_lt_trans _ _ _ F12 F23). auto.
  - apply String.compare_eq_iff in E12. subst. rewrite E23. auto.
  - apply String.compare_eq_iff in E23. subst. rewrite E12. auto.
  - rewrite (string_compare_lt_trans _ _ _ E12 E23). auto.
Qed.

Lemma insert_key_In (k k' : key) (l : list key) :
  In k' (insert_key k l) <-> k' = k \/ In k' l.
Proof.
  induction l as [|x l IH]; cbn [insert_key In]; [intuition|].
  destruct (key_leb k x); cbn [In]; [intuition|]. rewrite IH. intuition.
Qed.

Lemma insert_key_sorted (k : key) (l : list key) :
  StronglySorted key_le l -> StronglySorted key_le (insert_key k l).
Proof.
  induction 1 as [|x l Hl IH Hx]; cbn [insert_key].
  - repeat constructor.
  - destruct (key_leb k x) eqn:E.
    + constructor; [constructor; assumption|].
      constructor; [exact E|].
      eapply Forall_impl; [|exact Hx]. intros y Hy. exact (key_le_trans _ _ _ E Hy).
    + constructor; [exact IH|].
      apply Forall_forall. intros y Hy. apply insert_key_In in Hy.
      destruct Hy as [->|Hy].
      * destruct (key_le_total k x) as [H|H]; [unfold key_le in H; congruence | exact H].
      * rewrite Forall_forall in Hx. apply Hx, Hy.
Qed.

Lemma sort_keys_sorted (l : list key) : StronglySorted key_le (sort_keys l).
Proof.
  induction l as [|k l IH]; cbn [sort_keys fold_right]; [constructor|].
  apply insert_key_sorted. exact IH.
Qed.

Lemma sorted_permutation_unique (l1 : list key) :
  forall l2,
    StronglySorted key_le l1 -> StronglySorted key_le l2 -> Permutation l1 l2 -> l1 = l2.
Proof.
  induction l1 as [|a l1 IH]; intros l2 H1 H2 Hp.
  - apply Permutation_nil in Hp. subst. reflexivity.
  - destruct l2 as [|b l2]; [apply Permutation_sym, Permutation_nil in Hp; discriminate|].
    inversion H1 as [|? ? Hs1 Hf1]; subst. inversion H2 as [|? ? Hs2 Hf2]; subst.
    assert (Hab : a = b).
    { assert (Ha : In a (b :: l2)) by (eapply Permutation_in; [exact Hp | left; reflexivity]).
      assert (Hb : In b (a :: l1))
        by (eapply Permutation_in; [symmetry; exact Hp | left; reflexivity]).
      destruct Ha as [->|Ha]; [reflexivity|]. destruct Hb as [->|Hb]; [reflexivity|].
      rewrite Forall_forall in Hf1, Hf2.
      apply key_le_antisym; [apply Hf1, Hb | apply Hf2, Ha]. }
    subst b. f_equal. apply IH; try assumption.
    eapply Permutation_cons_inv. exact Hp.
Qed.

Lemma group_keys_same_keys (rows rows' : list Report.row) :
  (forall k, In k (present_keys rows) <-> In k (present_keys rows')) ->
  group_keys rows = group_keys rows'.
Proof.
  intros Hsame. unfold group_keys.
  apply sorted_permutation_unique; try apply sort_keys_sorted.
  rewrite <- !sort_keys_perm.
  apply NoDup_Permutation; try apply unique_keys_NoDup.
  intros k. rewrite !unique_keys_In. apply Hsame.
Qed.

Lemma groupby_sum_app_comm (a b : list Report.row) :
  groupby_sum (a ++ b) = groupby_sum (b ++ a).
Proof.
  unfold groupby_sum.
  rewrite (group_keys_same_keys (a ++ b) (b ++ a)).
  - apply map_ext. intros [[n t] r].
    rewrite !filter_app, !map_app, !sumQc_app.
    f_equal; apply Qcplus_comm.
  - intros k. rewrite !present_keys_app, !in_app_iff. tauto.
Qed.

(** ** More on the Kraken2 merge *)

Section MergeFurther.

Variable to_numeric : string -> option Qc.

Lemma merge_kraken_reports_ok_inv (paired unpaired : option report_file)
    (df : list Merged.row) :
  merge_kraken_reports to_numeric paired unpaired = Ok df ->
  exists rows,
    (paired <> None \/ unpaired <> None)
    /\ input_rows to_numeric paired unpaired = Ok rows
    /\ df = map (merged_row_of (total_reads_of (groupby_sum (map double_reads rows))))
                (groupby_sum (map double_reads rows)).
Proof.
  intros Hmerge.
  assert (Hpresent : paired <> None \/ unpaired <> None).
  { destruct paired, unpaired;
      [left; discriminate | left; discriminate | right; discriminate | discriminate Hmerge]. }
  assert (Hrows : exists rows, input_rows to_numeric paired unpaired = Ok rows).
  { unfold input_rows, load_present.
    unfold merge_kraken_reports, append_doubled in Hmerge.
    destruct paired as [fp|], unpaired as [fu|]; cbn [bind] in *.
    - destruct (load_kraken_report to_numeric fp); cbn [bind] in *; [|discriminate].
      destruct (load_kraken_report to_numeric fu); cbn [bind] in *; [|discriminate].
      eexists. reflexivity.
    - destruct (load_kraken_report to_numeric fp); cbn [bind] in *; [|discriminate].
      eexists. reflexivity.
    - destruct (load_kraken_report to_numeric fu); cbn [bind] in *; [|discriminate].
      eexists. reflexivity.
    - discriminate. }
  destruct Hrows as [rows Hrows]. exists rows. split; [exact Hpresent|]. split; [exact Hrows|].
  rewrite (merge_kraken_reports_eq to_numeric _ _ _ Hpresent Hrows) in Hmerge.
  injection Hmerge as <-. reflexivity.
Qed.

(** X7. The merge does not depend on which report is passed as the paired
    and which as the unpaired one: when the present reports are read,
    swapping the two inputs gives the same merged frame, rows and order. *)
Theorem merge_kraken_reports_swap
    (paired unpaired : option report_file) (p u : list Report.row) :
  load_present to_numeric paired = Ok p ->
  load_present to_numeric unpaired = Ok u ->
  merge_kraken_reports to_numeric paired unpaired
  = merge_kraken_reports to_numeric unpaired paired.
Proof.
  intros Hp Hu.
  destruct paired as [fp|], unpaired as [fu|]; try reflexivity.
  rewrite (merge_kraken_reports_eq to_numeric (Some fp) (Some fu) (p ++ u));
    [|left; discriminate|unfold input_rows; rewrite Hp, Hu; reflexivity].
  rewrite (merge_kraken_reports_eq to_numeric (Some fu) (Some fp) (u ++ p));
    [|left; discriminate|unfold input_rows; rewrite Hp, Hu; reflexivity].
  rewrite !map_app, (groupby_sum_app_comm (map double_reads p)). reflexivity.
Qed.

(** X8. The rows of a merged frame come out ordered by (name, tax_id, rank):
    each row's key is below or equal to the key of every later row. *)
Theorem merge_kraken_reports_sorted
    (paired unpaired : option report_file) (df : list Merged.row) :
  merge_kraken_reports to_numeric paired unpaired = Ok df ->
  StronglySorted key_le (map merged_key df).
Proof.
  intros Hmerge.
  destruct (merge_kraken_reports_ok_inv _ _ _ Hmerge) as (rows & _ & _ & ->).
  rewrite merged_keys, groupby_sum_keys. unfold group_keys. apply sort_keys_sorted.
Qed.

(** X9. A report file of size zero contributes no row: merging it with
    another report gives what the other report gives alone, on either side,
    and a pair of empty reports, or an empty report alone, merges to an empty
    frame instead of failing. *)
Theorem merge_kraken_reports_empty_file (other : report_file) :
  merge_kraken_reports to_numeric (Some EmptyFile) (Some other)
  = merge_kraken_reports to_numeric None (Some other)
  /\ merge_kraken_reports to_numeric (Some other) (Some EmptyFile)
     = merge_kraken_reports to_numeric (Some other) None
  /\ merge_kraken_reports to_numeric (Some EmptyFile) (Some EmptyFile) = Ok []
  /\ merge_kraken_reports to_numeric (Some EmptyFile) None = Ok []
  /\ merge_kraken_reports to_numeric None (Some EmptyFile) = Ok [].
Proof.
  unfold merge_kraken_reports, append_doubled.
  cbn [load_kraken_report bind map app].
  destruct (load_kraken_report to_numeric other) as [rows|e]; cbn [bind app concat];
    repeat split; reflexivity.
Qed.

End MergeFurther.

(** ** What the merged frame depends on *)

Lemma same_counts_key_of (r r' : Report.row) : same_counts r r' -> key_of r = key_of r'.
Proof.
  intros (Hn & Ht & Hr & _). unfold key_of. rewrite Hn, Ht, Hr. reflexivity.
Qed.

Lemma same_counts_present_keys (rows rows' : list Report.row) :
  Forall2 same_counts rows rows' -> present_keys rows = present_keys rows'.
Proof.
  induction 1 as [|r r' rows rows' Hr _ IH]; cbn [present_keys]; [reflexivity|].
  rewrite (same_counts_key_of r r' Hr), IH. reflexivity.
Qed.

Lemma same_counts_group_sums (k : key) (rows rows' : list Report.row) :
  Forall2 same_counts rows rows' ->
  sumQc (map Report.reads_clade (filter (in_group k) rows))
  = sumQc (map Report.reads_clade (filter (in_group k) rows'))
  /\ sumQc (map Report.reads_taxon (filter (in_group k) rows))
     = sumQc (map Report.reads_taxon (filter (in_group k) rows')).
Proof.
  induction 1 as [|r r' rows rows' Hr _ [IHc IHt]]; cbn [filter]; [split; reflexivity|].
  assert (Hg : in_group k r = in_group k r')
    by (unfold in_group; rewrite (same_counts_key_of r r' Hr); reflexivity).
  destruct Hr as (_ & _ & _ & Hc & Ht). rewrite Hg.
  destruct (in_group k r'); cbn [map]; rewrite ?sumQc_cons, ?IHc, ?IHt, ?Hc, ?Ht;
    split; reflexivity.
Qed.

Lemma same_counts_doubled (rows rows' : list Report.row) :
  Forall2 same_counts rows rows' ->
  Forall2 same_counts (map double_reads rows) (map double_reads rows').
Proof.
  induction 1 as [|r r' rows rows' Hr _ IH]; cbn [map]; constructor; [|exact IH].
  destruct Hr as (Hn & Ht & Hr & Hc & Hx).
  unfold same_counts, double_reads. cbn. rewrite Hn, Ht, Hr, Hc, Hx. repeat split.
Qed.

Lemma total_reads_of_groupby (rows : list Report.row) :
  total_reads_of (groupby_sum rows)
  = sumQc (map (fun k => sumQc (map Report.reads_clade (filter (in_group k) rows)))
               (filter (fun k : key => is_root (snd (fst k))) (group_keys rows))).
Proof.
  unfold total_reads_of, groupby_sum.
  induction (group_keys rows) as [|[[n t] r] ks IH]; cbn [map filter]; [reflexivity|].
  cbn [Grouped.tax_id fst snd]. destruct (is_root t); cbn [map]; [|exact IH].
  rewrite !sumQc_cons. cbn [Grouped.reads_clade]. rewrite IH. reflexivity.
Qed.

Lemma merged_frame_of_groups (total : Qc) (rows : list Report.row) :
  map (merged_row_of total) (groupby_sum rows)
  = map (fun k : key =>
           let g := filter (in_group k) rows in
           {| Merged.pct_reads := pct_of total (sumQc (map Report.reads_clade g));
              Merged.reads_clade := sumQc (map Report.reads_clade g);
              Merged.reads_taxon := sumQc (map Report.reads_taxon g);
              Merged.rank := snd k;
              Merged.tax_id := snd (fst k);
              Merged.name := fst (fst k) |})
        (group_keys rows).
Proof.
  unfold groupby_sum. rewrite map_map. apply map_ext. intros [[n t] r]. reflexivity.
Qed.

Lemma same_counts_merged (rows rows' : list Report.row) :
  Forall2 same_counts rows rows' ->
  map (merged_row_of (total_reads_of (groupby_sum rows))) (groupby_sum rows)
  = map (merged_row_of (total_reads_of (groupby_sum rows'))) (groupby_sum rows').
Proof.
  intros Hsame.
  assert (Hkeys : group_keys rows = group_keys rows')
    by (unfold group_keys; rewrite (same_counts_present_keys _ _ Hsame); reflexivity).
  assert (Htotal : total_reads_of (groupby_sum rows) = total_reads_of (groupby_sum rows')).
  { rewrite !total_reads_of_groupby, Hkeys. f_equal. apply map_ext. intros k.
    apply (same_counts_group_sums k _ _ Hsame). }
  rewrite !merged_frame_of_groups, Htotal, Hkeys. apply map_ext. intros k. cbv zeta.
  destruct (same_counts_group_sums k _ _ Hsame) as [-> ->]. reflexivity.
Qed.

Lemma nth_firstn_lt (A : Type) (d : A) (n i : nat) (l : list A) :
  (i < n)%nat -> nth i (firstn n l) d = nth i l d.
Proof.
  revert i l. induction n as [|n IH]; intros i l Hi; [lia|].
  destruct l as [|x l]; [destruct i; reflexivity|].
  destruct i as [|i]; [reflexivity|]. cbn [firstn nth]. apply IH. lia.
Qed.

Lemma rstrip_by_idempotent (p : ascii -> bool) (s : string) :
  Py.rstrip_by p (Py.rstrip_by p s) = Py.rstrip_by p s.
Proof.
  induction s as [|c s IH]; [reflexivity|].
  cbn [Py.rstrip_by]. destruct (Py.rstrip_by p s) as [|d r] eqn:E.
  - destruct (p c) eqn:Ec; [reflexivity|]. cbn [Py.rstrip_by]. rewrite Ec. reflexivity.
  - cbn [Py.rstrip_by]. cbn [Py.rstrip_by] in IH. rewrite IH. reflexivity.
Qed.

Lemma lstrip_by_head (p : ascii -> bool) (s : string) :
  Py.lstrip_by p s = EmptyString
  \/ exists c t, Py.lstrip_by p s = String c t /\ p c = false.
Proof.
  induction s as [|c s IH]; [left; reflexivity|].
  cbn [Py.lstrip_by]. destruct (p c) eqn:Ec; [exact IH|].
  right. exists c, s. auto.
Qed.

Lemma rstrip_by_head (p : ascii -> bool) (c : ascii) (t : string) :
  p c = false -> exists t', Py.rstrip_by p (String c t) = String c t'.
Proof.
  intros Ec. cbn [Py.rstrip_by]. destruct (Py.rstrip_by p t) as [|d r].
  - rewrite Ec. eexists. reflexivity.
  - eexists. reflexivity.
Qed.

Lemma strip_idempotent (s : string) : Py.strip (Py.strip s) = Py.strip s.
Proof.
  unfold Py.strip.
  destruct (lstrip_by_head Py.is_space s) as [->|(c & t & -> & Ec)]; [reflexivity|].
  destruct (rstrip_by_head Py.is_space c t Ec) as [t' Ht'].
  rewrite Ht'. cbn [Py.lstrip_by]. rewrite Ec, <- Ht'. apply rstrip_by_idempotent.
Qed.

Lemma Z2Qc_plus (a b : Z) : Z2Qc (a + b) = (Z2Qc a + Z2Qc b)%Qc.
Proof.
  apply Qc_is_canon. unfold Z2Qc, Qcplus. rewrite !this_Q2Qc, inject_Z_plus. reflexivity.
Qed.

Lemma Z2Qc_mult (a b : Z) : Z2Qc (a * b) = (Z2Qc a * Z2Qc b)%Qc.
Proof.
  apply Qc_is_canon. unfold Z2Qc, Qcmult. rewrite !this_Q2Qc, inject_Z_mult. reflexivity.
Qed.

Lemma trunc_Z2Qc (z : Z) : trunc (Z2Qc z) = z.
Proof.
  unfold trunc, Z2Qc, Q2Qc. cbn [this].
  assert (E : Qred (inject_Z z) = inject_Z z).
  { apply Qred_identity. cbn. apply Z.gcd_1_r. }
  rewrite E. cbn. apply Z.quot_1_r.
Qed.

Lemma integral_sum (l : list Qc) : Forall integral l -> integral (sumQc l).
Proof.
  induction 1 as [|x l [z ->] _ [s IH]].
  - exists 0. reflexivity.
  - exists (z + s). rewrite sumQc_cons, IH, Z2Qc_plus. reflexivity.
Qed.

Section MergeInputs.

Variable to_numeric : string -> option Qc.

(** X10. The merged frame is a function of the name, tax_id, rank,
    reads_clade and reads_taxon columns alone: two pairs of reports whose
    rows agree on these five columns merge to the same frame, whatever their
    pct_reads and minimizer columns hold. No percentage is carried over from
    a source file. *)
Theorem merge_kraken_reports_ignores_pct_and_minimizers
    (paired unpaired paired' unpaired' : option report_file)
    (rows rows' : list Report.row) :
  paired <> None \/ unpaired <> None ->
  paired' <> None \/ unpaired' <> None ->
  input_rows to_numeric paired unpaired = Ok rows ->
  input_rows to_numeric paired' unpaired' = Ok rows' ->
  Forall2 same_counts rows rows' ->
  merge_kraken_reports to_numeric paired unpaired
  = merge_kraken_reports to_numeric paired' unpaired'.
Proof.
  intros Hpresent Hpresent' Hrows Hrows' Hsame.
  rewrite (merge_kraken_reports_eq to_numeric _ _ _ Hpresent Hrows).
  rewrite (merge_kraken_reports_eq to_numeric _ _ _ Hpresent' Hrows').
  f_equal. apply same_counts_merged, same_counts_doubled, Hsame.
Qed.

(** X11. Only the first eight columns of a Kraken2 report are read: a frame
    with eight or more columns loads to the same rows as the frame cut down
    to its first eight columns. *)
Theorem load_kraken_report_first_eight_columns (t : raw_frame) :
  (8 <= shape1 t)%nat ->
  load_kraken_report to_numeric (Table t)
  = load_kraken_report to_numeric
      (Table {| shape1 := 8; raw_rows := map (firstn 8) (raw_rows t) |}).
Proof.
  intros Hwide. cbn [load_kraken_report shape1 raw_rows].
  assert (E : (shape1 t <? 8)%nat = false) by (apply Nat.ltb_ge; exact Hwide).
  rewrite E. cbn [Nat.ltb Nat.leb]. f_equal. rewrite map_map. apply map_ext.
  intros cs. unfold kraken_row_of, col.
  rewrite !nth_firstn_lt by lia. reflexivity.
Qed.

Lemma loaded_names_stripped (f : report_file) (rows : list Report.row) :
  load_kraken_report to_numeric f = Ok rows ->
  forall r n, In r rows -> Report.name r = Some n -> Py.strip n = n.
Proof.
  destruct f as [|t|]; cbn [load_kraken_report]; [| |discriminate].
  - intros H. injection H as <-. intros r n [].
  - destruct (shape1 t <? 8)%nat; [discriminate|].
    intros H. injection H as <-. intros r n Hr Hn.
    apply in_map_iff in Hr. destruct Hr as [cs [<- _]].
    cbn [kraken_row_of Report.name] in Hn. unfold str_strip in Hn.
    destruct (col 7 cs) as [s|]; [|discriminate].
    cbn [option_map] in Hn. injection Hn as <-. apply strip_idempotent.
Qed.

(** X12. The taxon names of a merged frame carry no surrounding whitespace:
    the indentation of the report's name column is stripped before grouping,
    so stripping a name of the merged frame changes nothing. *)
Theorem merge_kraken_reports_names_stripped
    (paired unpaired : option report_file) (df : list Merged.row) :
  merge_kraken_reports to_numeric paired unpaired = Ok df ->
  forall g, In g df -> Py.strip (Merged.name g) = Merged.name g.
Proof.
  intros Hmerge g Hg.
  destruct (merge_kraken_reports_ok_inv to_numeric _ _ _ Hmerge)
    as (rows & _ & Hrows & ->).
  assert (Hk : In (merged_key g)
                  (map merged_key
                       (map (merged_row_of (total_reads_of (groupby_sum (map double_reads rows))))
                            (groupby_sum (map double_reads rows)))))
    by (apply in_map; exact Hg).
  rewrite merged_keys, groupby_sum_keys, group_keys_doubled in Hk.
  apply group_keys_In in Hk. destruct Hk as (r & Hr & Hkey).
  unfold key_of in Hkey.
  destruct (Report.name r) as [n|] eqn:En; [|discriminate].
  destruct (Report.rank r) as [k|]; [|discriminate].
  unfold merged_key in Hkey. inversion Hkey as [[Hn Ht Hk]]. rewrite <- Hn.
  clear Hkey Hn Ht Hk.
  unfold input_rows, load_present in Hrows.
  destruct paired as [fp|], unpaired as [fu|]; cbn [bind] in Hrows.
  - destruct (load_kraken_report to_numeric fp) as [p|] eqn:Ep; cbn [bind] in Hrows;
      [|discriminate].
    destruct (load_kraken_report to_numeric fu) as [u|] eqn:Eu; cbn [bind] in Hrows;
      [|discriminate].
    injection Hrows as <-. apply in_app_or in Hr. destruct Hr as [Hr|Hr].
    + exact (loaded_names_stripped fp p Ep r n Hr En).
    + exact (loaded_names_stripped fu u Eu r n Hr En).
  - destruct (load_kraken_report to_numeric fp) as [p|] eqn:Ep; cbn [bind] in Hrows;
      [|discriminate].
    injection Hrows as <-. rewrite app_nil_r in Hr.
    exact (loaded_names_stripped fp p Ep r n Hr En).
  - destruct (load_kraken_report to_numeric fu) as [u|] eqn:Eu; cbn [bind] in Hrows;
      [|discriminate].
    injection Hrows as <-. exact (loaded_names_stripped fu u Eu r n Hr En).
  - injection Hrows as <-. destruct Hr.
Qed.

End MergeInputs.

(** ** Kraken2 totals of integer reports *)

Lemma root_sum_split (df : list Merged.row) :
  sumQc (map Merged.reads_clade (filter (fun r => is_root (Merged.tax_id r)) df))
  = (sumQc (map Merged.reads_clade
                (filter (fun r => Qc_eqb (Merged.tax_id r) (Z2Qc 0)) df))
     + sumQc (map Merged.reads_clade
                  (filter (fun r => Qc_eqb (Merged.tax_id r) (Z2Qc 1)) df)))%Qc.
Proof.
  induction df as [|g df IH]; cbn [filter map].
  - change (sumQc []) with 0%Qc. ring.
  - unfold is_root at 1.
    destruct (Qc_eqb (Merged.tax_id g) (Z2Qc 0)) eqn:E0;
      destruct (Qc_eqb (Merged.tax_id g) (Z2Qc 1)) eqn:E1;
      cbn [orb map]; rewrite ?sumQc_cons, IH; try ring.
    apply Qc_eqb_eq in E0. rewrite E0 in E1. vm_compute in E1. discriminate E1.
Qed.

Lemma integral_filtered_sum (p : Merged.row -> bool) (df : list Merged.row) :
  Forall (fun g => integral (Merged.reads_clade g)) df ->
  integral (sumQc (map Merged.reads_clade (filter p df))).
Proof.
  intros Hint. apply integral_sum. apply Forall_map.
  apply Forall_forall. intros g Hg. apply filter_In in Hg.
  rewrite Forall_forall in Hint. apply Hint, Hg.
Qed.

Lemma trunc_plus_integral (a b : Qc) :
  integral a -> integral b -> trunc (a + b) = trunc a + trunc b.
Proof.
  intros [x ->] [y ->]. rewrite <- Z2Qc_plus, !trunc_Z2Qc. reflexivity.
Qed.

Lemma integral_merged (rows : list Report.row) (total : Qc) :
  Forall (fun r => integral (Report.reads_clade r)) rows ->
  Forall (fun g => integral (Merged.reads_clade g))
         (map (merged_row_of total) (groupby_sum (map double_reads rows))).
Proof.
  intros Hint. apply Forall_forall. intros g Hg.
  apply in_map_iff in Hg. destruct Hg as [g0 [<- Hg0]].
  apply groupby_sum_row in Hg0. cbv zeta in Hg0. destruct Hg0 as [Hc _].
  cbn [Merged.reads_clade merged_row_of]. rewrite Hc.
  apply integral_sum, Forall_map, Forall_forall. intros r Hr.
  apply filter_In in Hr. destruct Hr as [Hr _].
  apply in_map_iff in Hr. destruct Hr as [r0 [<- Hr0]].
  rewrite Forall_forall in Hint. destruct (Hint r0 Hr0) as [z Hz].
  exists (2 * z). cbn [double_reads Report.reads_clade]. rewrite Hz, Z2Qc_mult. reflexivity.
Qed.

Lemma is_whole_integral (q : Qc) : is_whole q = true -> integral q.
Proof.
  unfold is_whole, Qc_eqb. intros H. exists (trunc q).
  symmetry. apply Qc_is_canon. apply Qeq_bool_iff. exact H.
Qed.

Lemma exact_counts_integral (rows : list Report.row) :
  exact_counts rows = true -> Forall (fun r => integral (Report.reads_clade r)) rows.
Proof.
  unfold exact_counts, exact_column. intros H.
  apply andb_true_iff in H. destruct H as [H _].
  apply andb_true_iff in H. destruct H as [H _].
  rewrite forallb_forall in H. apply Forall_forall. intros r Hr.
  apply is_whole_integral, H, in_map, Hr.
Qed.

Section IntegerReports.

Variable to_numeric : string -> option Qc.

(** X13. For Kraken2 reports whose counts are whole numbers in the exact
    range, the three totals of the summary add up: TOTAL_READS_TESTED is
    UNCLASSIFIED_TOTAL_K2 plus CLASSIFIED_TOTAL_K2. *)
Theorem kraken_totals_add_up (cdir : classification_stats_dir) (rows : list Report.row) :
  paired_report cdir <> None \/ unpaired_report cdir <> None ->
  input_rows to_numeric (paired_report cdir) (unpaired_report cdir) = Ok rows ->
  exact_counts rows = true ->
  exists ks total unclassified classified,
    kraken_totals to_numeric cdir = Ok ks
    /\ lookup "TOTAL_READS_TESTED" ks = Some total
    /\ lookup "UNCLASSIFIED_TOTAL_K2" ks = Some unclassified
    /\ lookup "CLASSIFIED_TOTAL_K2" ks = Some classified
    /\ total = unclassified + classified.
Proof.
  intros Hpresent Hrows Hexact.
  pose proof (exact_counts_integral rows Hexact) as Hint.
  unfold kraken_totals.
  rewrite (merge_kraken_reports_eq to_numeric _ _ _ Hpresent Hrows).
  do 4 eexists. split; [reflexivity|]. repeat split.
  unfold reads_clade_where. rewrite root_sum_split.
  apply trunc_plus_integral; apply integral_filtered_sum, integral_merged, Hint.
Qed.

End IntegerReports.

(** ** The MetaPhlAn header and table *)

(** X14. The two header scalars are read from the leading comment block
    only: scanning a file gives what scanning its lines up to the first one
    that does not start with '#' gives, so nothing after the table has begun
    is taken for a header. *)
Theorem scan_header_comment_block (lines : list string) :
  forall total_reads classified_reads,
    scan_header lines total_reads classified_reads
    = scan_header (comment_block lines) total_reads classified_reads.
Proof.
  induction lines as [|line rest IH]; intros total_reads classified_reads;
    [reflexivity|].
  cbn [scan_header comment_block].
  destruct (Py.startswith line "#") eqn:Hs; cbn [negb]; [|reflexivity].
  cbn [scan_header]. rewrite Hs. cbn [negb].
  destruct (Py.contains line "reads processed").
  - destruct (find_reads_processed _) as [found|e]; cbn [bind]; [apply IH | reflexivity].
  - cbn [bind]. apply IH.
Qed.

Lemma find_reads_processed_skip (before rest : list string) :
  Forall (fun p => Py.isdigit p = false) before ->
  find_reads_processed (before ++ rest) = find_reads_processed rest.
Proof.
  induction 1 as [|p before Hp _ IH]; [reflexivity|].
  cbn [app find_reads_processed]. rewrite Hp. exact IH.
Qed.

(** X15. In a header line that mentions "reads processed" the tokens are
    tried from the left and only tokens made of digits count. Such a token
    followed by "reads" and a token starting with "processed" is the total;
    one followed by another token than "reads", or by "reads" and a token
    that does not start with "processed", is passed over and the search
    goes on with the tokens after it; when it is the last token of the
    line, or is followed by "reads" alone, the lookup past the end raises
    IndexError; a line without any digit token leaves the total as it
    was. *)
Theorem find_reads_processed_first_number
    (before after : list string) (number next : string) :
  Forall (fun p => Py.isdigit p = false) before ->
  Py.isdigit number = true ->
  (Py.startswith next "processed" = true ->
   find_reads_processed (before ++ number :: "reads" :: next :: after)
   = Ok (Some (Py.int_digits number)))
  /\ (Py.startswith next "processed" = false ->
      find_reads_processed (before ++ number :: "reads" :: next :: after)
      = find_reads_processed ("reads" :: next :: after))
  /\ (String.eqb next "reads" = false ->
      find_reads_processed (before ++ number :: next :: after)
      = find_reads_processed (next :: after))
  /\ find_reads_processed (before ++ [number]) = Raise IndexError
  /\ find_reads_processed (before ++ [number; "reads"]) = Raise IndexError
  /\ find_reads_processed before = Ok None.
Proof.
  intros Hbefore Hnumber. repeat split.
  - intros Hnext. rewrite (find_reads_processed_skip _ _ Hbefore).
    cbn [find_reads_processed]. rewrite Hnumber, Hnext. reflexivity.
  - intros Hnext. rewrite (find_reads_processed_skip _ _ Hbefore).
    cbn [find_reads_processed]. rewrite Hnumber, Hnext.
    cbn [String.eqb Ascii.eqb Bool.eqb]. reflexivity.
  - intros Hnext. rewrite (find_reads_processed_skip _ _ Hbefore).
    cbn [find_reads_processed]. rewrite Hnumber, Hnext. reflexivity.
  - rewrite (find_reads_processed_skip _ _ Hbefore).
    cbn [find_reads_processed]. rewrite Hnumber. reflexivity.
  - rewrite (find_reads_processed_skip _ _ Hbefore).
    cbn [find_reads_processed]. rewrite Hnumber. reflexivity.
  - rewrite <- (app_nil_r before), (find_reads_processed_skip _ _ Hbefore). reflexivity.
Qed.

Section MetaphlanColumns.

Variable to_numeric : string -> option Qc.

Lemma summarize_classification_not_five_columns
    (cdir : classification_stats_dir) (m : metaphlan_file) (t : raw_frame) :
  metaphlan_report cdir = Some m ->
  mpa_table m = Ok t ->
  shape1 t <> 5%nat ->
  exists ex, summarize_classification to_numeric cdir = Raise ex.
Proof.
  intros Hm Ht Hshape.
  destruct (summarize_classification to_numeric cdir) as [[row log]|ex] eqn:Hsum;
    [exfalso | exists ex; reflexivity].
  destruct (summarize_classification_ok to_numeric cdir _ _ Hsum) as (_ & _ & Hload & _).
  rewrite Hm in Hload. destruct Hload as [dfm Hload].
  unfold load_metaphlan_table in Hload. rewrite Ht in Hload. cbn [bind] in Hload.
  destruct (shape1 t <? 5)%nat; [discriminate|].
  destruct (shape1 t =? 5)%nat eqn:E; [|discriminate].
  apply Nat.eqb_eq in E. contradiction.
Qed.

(** X16. The MetaPhlAn table loads only when it has exactly five columns
    and no infinity in its clade_taxid column, and then row for row: an
    infinite clade_taxid raises ValueError (the cast to int), fewer columns
    raise RuntimeError, more raise ValueError (five names for more columns),
    and with a column count other than five the invocation ends with exit
    status 1 and writes nothing. *)
Theorem load_metaphlan_table_five_columns (t : raw_frame) :
  (shape1 t = 5%nat ->
   finite_taxids to_numeric t = true ->
   exists dfm,
     load_metaphlan_table to_numeric (Ok t) = Ok dfm
     /\ length dfm = length (raw_rows t))
  /\ (shape1 t = 5%nat ->
      finite_taxids to_numeric t = false ->
      load_metaphlan_table to_numeric (Ok t) = Raise ValueError)
  /\ ((shape1 t < 5)%nat -> load_metaphlan_table to_numeric (Ok t) = Raise RuntimeError)
  /\ ((5 < shape1 t)%nat -> load_metaphlan_table to_numeric (Ok t) = Raise ValueError)
  /\ (shape1 t <> 5%nat ->
      forall fdir cdir sample m,
        metaphlan_report cdir = Some m ->
        mpa_table m = Ok t ->
        let o := main to_numeric fdir cdir sample in
        exit_status o = 1 /\ summary_tsv o = None /\ tables o = no_tables).
Proof.
  unfold load_metaphlan_table, finite_taxids. cbn [bind].
  split; [|split; [|split; [|split]]].
  - intros -> Hfinite. apply negb_true_iff in Hfinite. rewrite Hfinite. cbn.
    eexists. split; [reflexivity|]. apply length_map.
  - intros -> Hinf. apply negb_false_iff in Hinf. rewrite Hinf. reflexivity.
  - intros H. apply Nat.ltb_lt in H. rewrite H. reflexivity.
  - intros H.
    assert (E1 : (shape1 t <? 5)%nat = false) by (apply Nat.ltb_ge; lia).
    assert (E2 : (shape1 t =? 5)%nat = false) by (apply Nat.eqb_neq; lia).
    rewrite E1, E2. reflexivity.
  - intros Hshape fdir cdir sample m Hm Ht.
    destruct (summarize_classification_not_five_columns cdir m t Hm Ht Hshape) as [ex Hex].
    cbv zeta. rewrite (main_raise to_numeric _ _ _ _ Hex). cbn. auto.
Qed.

End MetaphlanColumns.

(** ** Normalization and the summary row *)

Lemma lookup_update_other (d summary : series) (k : string) :
  ~ In k (keys d) -> lookup k (update summary d) = lookup k summary.
Proof.
  unfold update. revert summary.
  induction d as [|[k' v] d IH]; intros summary Hk; [reflexivity|].
  cbn [fold_left fst snd]. rewrite IH.
  - rewrite lookup_set. destruct (String.eqb k k') eqn:E; [|reflexivity].
    apply String.eqb_eq in E. subst. exfalso. apply Hk. left. reflexivity.
  - intros Hin. apply Hk. right. exact Hin.
Qed.

Section SummaryRow.

Variable to_numeric : string -> option Qc.

(** X18. Called with a positive denominator, the normalization step treats
    the two classifiers apart: when the Kraken2 merge fails and the MetaPhlAn
    table loads, the MetaPhlAn table is written in full and one warning is
    logged, and the other way round. *)
Theorem write_normalized_tables_recovers (cdir : classification_stats_dir) (D : Z) :
  0 < D ->
  (forall ex f dfm,
      paired_report cdir <> None \/ unpaired_report cdir <> None ->
      merge_kraken_reports to_numeric (paired_report cdir) (unpaired_report cdir) = Raise ex ->
      metaphlan_report cdir = Some f ->
      load_metaphlan_table to_numeric (mpa_table f) = Ok dfm ->
      write_normalized_tables to_numeric cdir D
      = ({| kraken_txt := None;
            metaphlan_txt := Some (map (metaphlan_rpm_row D) dfm) |},
         [WarnKrakenNormalizationFailed ex]))
  /\ (forall dfk ex f,
        merge_kraken_reports to_numeric (paired_report cdir) (unpaired_report cdir) = Ok dfk ->
        metaphlan_report cdir = Some f ->
        load_metaphlan_table to_numeric (mpa_table f) = Raise ex ->
        write_normalized_tables to_numeric cdir D
        = ({| kraken_txt := Some (map (kraken_rpm_row D) dfk);
              metaphlan_txt := None |},
           [WarnMetaphlanNormalizationFailed ex])).
Proof.
  intros HD. assert (E : (D <=? 0) = false) by lia.
  unfold write_normalized_tables, write_kraken_table, write_metaphlan_table. rewrite E.
  split.
  - intros ex f dfm Hpresent Hmerge Hf Hload. rewrite Hmerge, Hf, Hload.
    destruct (paired_report cdir), (unpaired_report cdir); try reflexivity.
    destruct Hpresent as [H|H]; exfalso; apply H; reflexivity.
  - intros dfk ex f Hmerge Hf Hload. rewrite Hmerge, Hf, Hload.
    destruct (paired_report cdir), (unpaired_report cdir); try reflexivity.
    discriminate Hmerge.
Qed.

(** X19. Without any classifier output an invocation whose filtering counts
    fit 64 bits still succeeds: the exit status is 0, the summary row is the filtering summary alone, no
    normalized table is written and the missing classifier outputs are
    reported on stderr. *)
Theorem main_without_classifier_outputs
    (fdir : filter_stats_dir) (cdir : classification_stats_dir) (sample : string) :
  filter_counts_fit fdir sample = true ->
  paired_report cdir = None ->
  unpaired_report cdir = None ->
  metaphlan_report cdir = None ->
  let o := main to_numeric fdir cdir sample in
  exit_status o = 0
  /\ summary_tsv o = Some (fst (filtering_summary fdir sample))
  /\ tables o = no_tables
  /\ In WarnNoClassifierOutputs (stderr o).
Proof.
  intros _ Hp Hu Hm.
  assert (Hsum : summarize_classification to_numeric cdir = Ok ([], [WarnNoClassifierOutputs])).
  { unfold summarize_classification, kraken_totals. rewrite Hp, Hu, Hm. reflexivity. }
  cbv zeta. rewrite (main_ok to_numeric _ _ _ _ _ Hsum). cbv zeta.
  cbn [exit_status summary_tsv tables stderr]. rewrite app_nil_r.
  split; [reflexivity|]. split; [reflexivity|]. split.
  - unfold write_normalized_tables, write_kraken_table, write_metaphlan_table.
    rewrite Hp, Hu, Hm. destruct (_ <=? 0); reflexivity.
  - apply in_or_app. right. left. reflexivity.
Qed.

(** X20. TOTAL_READS_TESTED of the summary row is the denominator of the
    merged Kraken2 frame, the one every pct_reads is computed against, taken
    as an integer. *)
Theorem summary_total_reads_tested
    (fdir : filter_stats_dir) (cdir : classification_stats_dir) (sample : string)
    (row : series) (df : list Merged.row) :
  summary_tsv (main to_numeric fdir cdir sample) = Some row ->
  merge_kraken_reports to_numeric (paired_report cdir) (unpaired_report cdir) = Ok df ->
  lookup "TOTAL_READS_TESTED" row = Some (trunc (denominator df)).
Proof.
  intros Hrow Hmerge.
  destruct (summarize_classification to_numeric cdir) as [[class_row log_c]|ex] eqn:Hsum.
  2:{ rewrite (main_raise to_numeric _ _ _ _ Hsum) in Hrow. discriminate Hrow. }
  rewrite (main_ok to_numeric _ _ _ _ _ Hsum) in Hrow. cbn [summary_tsv] in Hrow.
  injection Hrow as <-.
  rewrite lookup_app, lookup_not_in_keys.
  2:{ rewrite filtering_summary_eq, keys_reindex_fill0. cbv.
      intros H. repeat (destruct H as [H|H]; [discriminate H|]). exact H. }
  unfold summarize_classification, kraken_totals in Hsum. rewrite Hmerge in Hsum.
  cbn [bind] in Hsum.
  destruct (metaphlan_report cdir) as [f|].
  - destruct (metaphlan_totals to_numeric f) as [d|e] eqn:Ed; cbn [bind] in Hsum;
      [|discriminate].
    injection Hsum as <- _.
    apply metaphlan_totals_ok in Ed. destruct Ed as [Hd _].
    rewrite lookup_update_other; [reflexivity|].
    rewrite Hd. cbv. intros H. repeat (destruct H as [H|H]; [discriminate H|]). exact H.
  - cbn [bind] in Hsum. injection Hsum as <- _. reflexivity.
Qed.

End SummaryRow.

(** ** MetaPhlAn totals and flagstat warnings *)

Section MetaphlanTotals.

Variable to_numeric : string -> option Qc.

Lemma metaphlan_totals_values (f : metaphlan_file) (d : series) :
  metaphlan_totals to_numeric f = Ok d ->
  exists total classified bacteria archaea,
    d = [ ("TOTAL_READS_MPA", total);
          ("CLASSIFIED_READS_MPA", classified);
          ("UNCLASSIFIED_READS_MPA", Z.max 0 (total - classified));
          ("BACTERIAL_READS_MPA", bacteria);
          ("ARCHAEAL_READS_MPA", archaea) ].
Proof.
  unfold metaphlan_totals.
  destruct (mpa_text f) as [|content]; cbn [bind]; [discriminate|].
  destruct (scan_header _ 0 0) as [[total classified]|e]; cbn [bind]; [|discriminate].
  destruct (load_metaphlan_table to_numeric (mpa_table f)) as [dfm|e]; cbn [bind];
    [|discriminate].
  intros H. injection H as <-. do 4 eexists. reflexivity.
Qed.

(** X21. In a classification summary with MetaPhlAn totals,
    UNCLASSIFIED_READS_MPA plus CLASSIFIED_READS_MPA is the larger of
    TOTAL_READS_MPA and CLASSIFIED_READS_MPA: the two add up to the total
    whenever the classified count does not exceed it, and the total is never
    above their sum. *)
Theorem summarize_classification_metaphlan_sum
    (cdir : classification_stats_dir) (f : metaphlan_file)
    (summary : series) (log : list message) :
  metaphlan_report cdir = Some f ->
  summarize_classification to_numeric cdir = Ok (summary, log) ->
  exists total classified unclassified,
    lookup "TOTAL_READS_MPA" summary = Some total
    /\ lookup "CLASSIFIED_READS_MPA" summary = Some classified
    /\ lookup "UNCLASSIFIED_READS_MPA" summary = Some unclassified
    /\ unclassified + classified = Z.max total classified
    /\ (classified <= total -> unclassified + classified = total)
    /\ total <= unclassified + classified.
Proof.
  intros Hf Hsum. unfold summarize_classification in Hsum.
  destruct (kraken_totals to_numeric cdir) as [ks|e] eqn:Ek; cbn [bind] in Hsum;
    [|discriminate].
  rewrite Hf in Hsum.
  destruct (metaphlan_totals to_numeric f) as [d|e] eqn:Ed; cbn [bind] in Hsum;
    [|discriminate].
  injection Hsum as <- _.
  destruct (metaphlan_totals_values f d Ed) as (total & classified & b & a & ->).
  exists total, classified, (Z.max 0 (total - classified)).
  destruct (kraken_totals_shape to_numeric cdir ks Ek) as [->|(x1 & x2 & x3 & x4 & x5 & ->)];
    repeat split; try reflexivity; lia.
Qed.

End MetaphlanTotals.

Lemma collect_flagstats_log_incl (dir : filter_stats_dir) (mapping : list (string * string)) :
  forall rs log msg,
    In msg log -> In msg (snd (collect_flagstats dir mapping rs log)).
Proof.
  induction mapping as [|[key fname] mapping IH]; intros rs log msg Hin; [exact Hin|].
  cbn [collect_flagstats]. destruct (flagstat_file dir fname) as [f|]; [|apply IH, Hin].
  destruct (parse_flagstat_primary f) as [[n|] msgs];
    apply IH, in_or_app; left; exact Hin.
Qed.

Lemma collect_flagstats_unreadable_head (dir : filter_stats_dir) (key fname : string)
    (mapping : list (string * string)) (rs : series) (log : list message) :
  flagstat_file dir fname = Some Unreadable ->
  In WarnFlagstatUnreadable (snd (collect_flagstats dir ((key, fname) :: mapping) rs log)).
Proof.
  intros Hfile. cbn [collect_flagstats]. rewrite Hfile. cbn [parse_flagstat_primary].
  apply collect_flagstats_log_incl, in_or_app. right. left. reflexivity.
Qed.

(** X22. When the counts of the sample fit 64 bits, an existing
    <sample>.flagstat.tsv that cannot be read is reported on stderr and
    PRIMARY_READS is 0 in the row. *)
Theorem filtering_summary_unreadable_flagstat (dir : filter_stats_dir) (sample : string) :
  filter_counts_fit dir sample = true ->
  flagstat_file dir (sample ++ ".flagstat.tsv") = Some Unreadable ->
  In WarnFlagstatUnreadable (snd (filtering_summary dir sample))
  /\ lookup "PRIMARY_READS" (fst (filtering_summary dir sample)) = Some 0.
Proof.
  intros _ Hfile.
  assert (Hlog : snd (filtering_summary dir sample)
                 = snd (collect_flagstats dir (flagstat_mapping sample) [] [])).
  { unfold filtering_summary, collect_primary_reads.
    destruct (collect_flagstats dir (flagstat_mapping sample) [] []) as [rs log].
    reflexivity. }
  rewrite Hlog. split.
  - unfold flagstat_mapping. apply collect_flagstats_unreadable_head. exact Hfile.
  - rewrite filtering_summary_primary_reads_row.
    unfold extracted_primary. rewrite Hfile. reflexivity.
Qed.

(** ** The further properties on the sample inputs *)

Lemma filtering_summary_primary_reads_witness :
  filter_counts_fit (only_flagstat scenario_flagstat) "s" = true
  /\ lookup "PRIMARY_READS" (fst (filtering_summary (only_flagstat scenario_flagstat) "s"))
     = Some 100.
Proof.
  split; [vm_compute; reflexivity|].
  destruct (filtering_summary_primary_reads (only_flagstat scenario_flagstat) "s")
    as (H & _).
  - vm_compute. reflexivity.
  - rewrite H. reflexivity.
Defined.




Lemma main_summary_keys_witness :
  exists row,
    summary_tsv (main decimal_literal (only_flagstat scenario_flagstat)
                      both_classifiers "s") = Some row
    /\ NoDup (keys row).
Proof.
  eexists. split; [reflexivity|].
  apply (main_summary_keys decimal_literal (only_flagstat scenario_flagstat)
           both_classifiers "s").
  reflexivity.
Defined.

Lemma main_tables_match_reports_witness :
  metaphlan_txt (tables (main decimal_literal (only_flagstat scenario_flagstat)
                              both_classifiers "s")) <> None.
Proof.
  destruct (main_tables_match_reports decimal_literal (only_flagstat scenario_flagstat)
              both_classifiers "s") as (_ & H & _).
  - reflexivity.
  - vm_compute. reflexivity.
  - apply H. discriminate.
Defined.

Lemma merge_kraken_reports_swap_witness :
  merge_kraken_reports decimal_literal (Some scenario_report) (Some half_scenario_report)
  = merge_kraken_reports decimal_literal (Some half_scenario_report) (Some scenario_report).
Proof.
  apply (merge_kraken_reports_swap decimal_literal
           (Some scenario_report) (Some half_scenario_report)
           scenario_rows half_scenario_rows); reflexivity.
Defined.

Lemma merge_kraken_reports_sorted_witness :
  exists df,
    merge_kraken_reports decimal_literal (Some nested_report) None = Ok df
    /\ StronglySorted key_le (map merged_key df).
Proof.
  eexists. split; [reflexivity|].
  apply (merge_kraken_reports_sorted decimal_literal (Some nested_report) None).
  reflexivity.
Defined.

Lemma merge_kraken_reports_ignores_pct_and_minimizers_witness :
  merge_kraken_reports decimal_literal (Some scenario_report) None
  = merge_kraken_reports decimal_literal (Some scenario_report_wide) None.
Proof.
  apply (merge_kraken_reports_ignores_pct_and_minimizers decimal_literal
           (Some scenario_report) None (Some scenario_report_wide) None
           scenario_rows scenario_rows_wide).
  - left. discriminate.
  - left. discriminate.
  - reflexivity.
  - reflexivity.
  - repeat constructor.
Defined.

Lemma load_kraken_report_first_eight_columns_witness :
  load_kraken_report decimal_literal scenario_report_wide
  = load_kraken_report decimal_literal
      (Table {| shape1 := 8;
                raw_rows := [ text_row ["55.50"; "10"; "10"; "7"; "3"; "U"; "0"; "unclassified"];
                              text_row ["44.50"; "90"; "90"; "9"; "4"; "R"; "1"; "root"] ] |}).
Proof.
  apply (load_kraken_report_first_eight_columns decimal_literal
           {| shape1 := 9;
              raw_rows := [ text_row ["55.50"; "10"; "10"; "7"; "3"; "U"; "0"; "unclassified"; "x"];
                            text_row ["44.50"; "90"; "90"; "9"; "4"; "R"; "1"; "root"; "y"] ] |}).
  cbn. lia.
Defined.

Lemma merge_kraken_reports_names_stripped_witness :
  exists df,
    merge_kraken_reports decimal_literal (Some nested_report) None = Ok df
    /\ forall g, In g df -> Py.strip (Merged.name g) = Merged.name g.
Proof.
  eexists. split; [reflexivity|].
  apply (merge_kraken_reports_names_stripped decimal_literal (Some nested_report) None).
  reflexivity.
Defined.

Lemma kraken_totals_add_up_witness :
  exists ks total unclassified classified,
    kraken_totals decimal_literal scenario_classification = Ok ks
    /\ lookup "TOTAL_READS_TESTED" ks = Some total
    /\ lookup "UNCLASSIFIED_TOTAL_K2" ks = Some unclassified
    /\ lookup "CLASSIFIED_TOTAL_K2" ks = Some classified
    /\ total = unclassified + classified.
Proof.
  apply (kraken_totals_add_up decimal_literal scenario_classification scenario_rows).
  - left. discriminate.
  - reflexivity.
  - vm_compute. reflexivity.
Defined.

Lemma find_reads_processed_first_number_witness :
  find_reads_processed ["1000"; "reads"; "processed"] = Ok (Some 1000)
  /\ find_reads_processed ["7"; "of"; "1000"; "reads"; "processed"; "here"]
     = Ok (Some 1000)
  /\ find_reads_processed ["reads"; "processed"; "1000"] = Raise IndexError.
Proof.
  split; [|split].
  - destruct (find_reads_processed_first_number [] [] "1000" "processed") as [H _];
      [constructor | reflexivity |].
    apply H. reflexivity.
  - destruct (find_reads_processed_first_number
                [] ["1000"; "reads"; "processed"; "here"] "7" "of")
      as (_ & _ & H & _); [constructor | reflexivity |].
    cbn [app] in H. rewrite H; reflexivity.
  - destruct (find_reads_processed_first_number ["reads"; "processed"] [] "1000" "")
      as (_ & _ & _ & H & _); [repeat constructor | reflexivity |].
    exact H.
Defined.

Lemma load_metaphlan_table_five_columns_witness :
  load_metaphlan_table decimal_literal (mpa_table six_column_metaphlan) = Raise ValueError
  /\ exit_status (main decimal_literal no_filter_stats six_column_classification "s") = 1.
Proof.
  destruct (load_metaphlan_table_five_columns decimal_literal
              {| shape1 := 6;
                 raw_rows := [ text_row ["k__Bacteria"; "2"; "100.0"; "0.5"; "800"; "extra"] ] |})
    as (_ & _ & _ & Hmore & Hfatal).
  split.
  - apply Hmore. cbn. lia.
  - apply (Hfatal ltac:(cbn; lia) no_filter_stats six_column_classification "s"
                  six_column_metaphlan); reflexivity.
Defined.

Lemma write_normalized_tables_recovers_witness :
  exists out,
    write_normalized_tables decimal_literal malformed_classification 100
    = ({| kraken_txt := None; metaphlan_txt := Some out |},
       [WarnKrakenNormalizationFailed ValueError]).
Proof.
  destruct (write_normalized_tables_recovers decimal_literal malformed_classification 100)
    as [H _]; [lia|].
  eexists.
  apply (H ValueError scenario_metaphlan); [left; discriminate| | |]; reflexivity.
Defined.

Lemma main_without_classifier_outputs_witness :
  exit_status (main decimal_literal (only_flagstat scenario_flagstat)
                    no_classifier_output "s") = 0.
Proof.
  destruct (main_without_classifier_outputs decimal_literal (only_flagstat scenario_flagstat)
              no_classifier_output "s") as [H _];
    [vm_compute; reflexivity | reflexivity | reflexivity | reflexivity |].
  exact H.
Defined.

Lemma summary_total_reads_tested_witness :
  exists row df,
    summary_tsv (main decimal_literal (only_flagstat scenario_flagstat)
                      scenario_classification "s") = Some row
    /\ merge_kraken_reports decimal_literal (Some scenario_report) None = Ok df
    /\ lookup "TOTAL_READS_TESTED" row = Some (trunc (denominator df)).
Proof.
  do 2 eexists. split; [reflexivity|]. split; [reflexivity|].
  apply (summary_total_reads_tested decimal_literal (only_flagstat scenario_flagstat)
           scenario_classification "s"); reflexivity.
Defined.

Lemma summarize_classification_metaphlan_sum_witness :
  exists summary log total classified unclassified,
    summarize_classification decimal_literal both_classifiers = Ok (summary, log)
    /\ lookup "TOTAL_READS_MPA" summary = Some total
    /\ lookup "CLASSIFIED_READS_MPA" summary = Some classified
    /\ lookup "UNCLASSIFIED_READS_MPA" summary = Some unclassified
    /\ unclassified + classified = Z.max total classified.
Proof.
  do 2 eexists.
  destruct (summarize_classification_metaphlan_sum decimal_literal both_classifiers
              scenario_metaphlan _ _ eq_refl eq_refl)
    as (total & classified & unclassified & Ht & Hc & Hu & Hsum & _).
  exists total, classified, unclassified. split; [reflexivity|]. auto.
Defined.

Lemma filtering_summary_unreadable_flagstat_witness :
  filter_counts_fit unreadable_flagstat "s" = true
  /\ In WarnFlagstatUnreadable (snd (filtering_summary unreadable_flagstat "s"))
  /\ lookup "PRIMARY_READS" (fst (filtering_summary unreadable_flagstat "s")) = Some 0.
Proof.
  split; [vm_compute; reflexivity|].
  apply (filtering_summary_unreadable_flagstat unreadable_flagstat "s").
  - vm_compute. reflexivity.
  - reflexivity.
Defined.
